(** * A shallow embedding of the multi-agent routing system

    The development follows the Python package [src]: [state.py] (the shared
    state), [config.py], [tools.py] (capabilities), [agents.py] (worker
    turns), [supervisor.py] (router turns), [graph.py] (the hub-and-spoke
    workflow) and [main.py] (the entry point).

    Python dictionaries are finite maps ([gmap]) or, for the typed
    dictionary [AgentState], a record of optional fields; a function that may
    raise and that touches the outside world is a computation in the monad
    [M], which threads an explicit world and returns [Ok] or [Raise]. *)

From Stdlib Require Import ZArith String Ascii DecimalString.
From stdpp Require Import gmap strings list.

Open Scope string_scope.
Open Scope list_scope.

(** ** Python string primitives used by the sources *)
Module Py.

(** [s.startswith(pre)] *)
Definition startswith (s pre : string) : bool := String.prefix pre s.

(** [str(n)] for an integer. *)
Definition str_of_Z (n : Z) : string := NilZero.string_of_int (Z.to_int n).

Definition str_of_nat (n : nat) : string := str_of_Z (Z.of_nat n).

Definition upper_ascii (c : ascii) : ascii :=
  let n := nat_of_ascii c in
  if (97 <=? n)%nat && (n <=? 122)%nat then ascii_of_nat (n - 32) else c.

(** [s.upper()] on ASCII text. *)
Fixpoint upper (s : string) : string :=
  match s with
  | EmptyString => EmptyString
  | String c r => String (upper_ascii c) (upper r)
  end.

(** [sep.join(l)] *)
Fixpoint join (sep : string) (l : list string) : string :=
  match l with
  | [] => ""
  | [x] => x
  | x :: r => x +:+ sep +:+ join sep r
  end.

(** [s[:n]] *)
Fixpoint take (n : nat) (s : string) : string :=
  match n, s with
  | S k, String c r => String c (take k r)
  | _, _ => ""
  end.

(** [c * n] for a one-character string. *)
Fixpoint repeat (c : ascii) (n : nat) : string :=
  match n with
  | O => ""
  | S k => String c (repeat c k)
  end.

(** The ASCII characters removed by [str.strip()]. *)
Definition is_space (c : ascii) : bool :=
  let n := nat_of_ascii c in
  (n =? 32)%nat || ((9 <=? n)%nat && (n <=? 13)%nat)
  || ((28 <=? n)%nat && (n <=? 31)%nat).

Fixpoint lstrip (s : string) : string :=
  match s with
  | String c r => if is_space c then lstrip r else s
  | EmptyString => ""
  end.

(** [s.strip()] *)
Definition strip (s : string) : string :=
  String.rev (lstrip (String.rev (lstrip s))).

(** Truthiness of a string: [bool(s)]. *)
Definition truthy (s : string) : bool :=
  match s with EmptyString => false | _ => true end.

(** [a or b] on strings. *)
Definition or_else (a b : string) : string := if truthy a then a else b.

End Py.

(** ** Messages (langchain_core.messages) *)

(** A tool call requested by the reasoning step: [{"name": .., "args": ..}]. *)
Record ToolCall := mkToolCall {
  call_name : string;
  call_args : gmap string string
}.

Inductive MessageType := human | ai.

Record Message := mkMessage {
  type : MessageType;
  content : string;
  tool_calls : list ToolCall
}.

Definition HumanMessage (c : string) : Message := mkMessage human c [].
Definition AIMessage (c : string) : Message := mkMessage ai c [].

(** ** state.py *)

(** One entry of ["tool_results"]: the keys ["tool"] and ["args"], and
    either the key ["result"] or the key ["error"]. *)
Inductive ToolOutcome :=
| result (value : string)
| error (reason : string).

Record ToolResult := mkToolResult {
  tool : string;
  args : gmap string string;
  outcome : ToolOutcome
}.

(** One entry of [intermediate_results]:
    [{"agent": .., "tool_results": ..}]. *)
Record TurnResult := mkTurnResult {
  agent : string;
  tool_results : list ToolResult
}.

(** [AgentState] is a typed dictionary: both the full state and the partial
    updates returned by the nodes have this type, so every key may be
    absent. *)
Record AgentState := mkAgentState {
  messages : option (list Message);
  next_agent : option string;
  task_context : option (gmap string string);
  intermediate_results : option (list TurnResult)
}.

(** [AGENTS = Literal["research", "code", "files", "database", "api",
    "FINISH"]] *)
Inductive AGENTS := research | code | files | database | api | FINISH.

Definition agent_id (a : AGENTS) : string :=
  match a with
  | research => "research"
  | code => "code"
  | files => "files"
  | database => "database"
  | api => "api"
  | FINISH => "FINISH"
  end.

Definition AGENT_DESCRIPTIONS : list (string * string) :=
  [ ("research", "Web search and information retrieval from the internet");
    ("code", "Python code generation and execution");
    ("files", "File system operations (read, write, list, delete files)");
    ("database", "Database queries and operations (SQL)");
    ("api", "External API requests and integrations");
    ("FINISH", "Task is complete, return final response to user") ].

(** Modelled from the spec: the reducer [add_messages] that [state.py]
    attaches to the key ["messages"] comes from the langgraph package and is
    not under src/; the spec gives its behaviour: new messages from a turn
    are appended, not replacing prior ones. *)
Definition add_messages (left right : list Message) : list Message :=
  left ++ right.

(** The merge that the workflow engine applies to a node's update: the key
    ["messages"] goes through its reducer, a key without reducer
    ([next_agent], [task_context], [intermediate_results]) is overwritten
    when the update has it. *)
Definition merge (state delta : AgentState) : AgentState :=
  {| messages :=
       match messages delta with
       | Some new => Some (add_messages (default [] (messages state)) new)
       | None => messages state
       end;
     next_agent :=
       match next_agent delta with Some a => Some a | None => next_agent state end;
     task_context :=
       match task_context delta with Some c => Some c | None => task_context state end;
     intermediate_results :=
       match intermediate_results delta with
       | Some r => Some r
       | None => intermediate_results state
       end |}.

(** ** config.py *)

(** The float [temperature] is left out: no definition below reads it. *)
Record Config := mkConfig {
  openai_api_key : string;
  model_name : string;
  tavily_api_key : string;
  database_url : string;
  allowed_file_path : string;
  code_execution_timeout : Z
}.

(** [Config.validate]: the list of missing keys. *)
Definition validate (self : Config) : list string :=
  let missing : list string := [] in
  let missing :=
    if negb (Py.truthy (openai_api_key self))
    then missing ++ ["OPENAI_API_KEY"] else missing in
  missing.

(** ** Effects: exceptions over an explicit world *)

(** The exception classes that some [except] clause of the sources tells
    apart; every other class is [OtherError]. *)
Inductive ExcClass := TimeoutExpired | FileNotFoundError | KeyError | OtherError.

(** An exception: its class and [str(e)]. *)
Record Exception := mkException {
  exc_class : ExcClass;
  exc_str : string
}.

Inductive Exc (A : Type) :=
| Ok (a : A)
| Raise (e : Exception).
Arguments Ok {A} a.
Arguments Raise {A} e.

(** A computation over the outside world (file system, processes, the
    reasoning backend): it returns or raises, and leaves a new world. *)
Definition M (World A : Type) : Type := World → Exc A * World.

Definition ret {World A} (a : A) : M World A := λ w, (Ok a, w).

Definition raise {World A} (e : Exception) : M World A := λ w, (Raise e, w).

Definition bind {World A B} (m : M World A) (k : A → M World B) : M World B :=
  λ w, match m w with
       | (Ok a, w') => k a w'
       | (Raise e, w') => (Raise e, w')
       end.

Notation "'let*' x ':=' m 'in' k" := (bind m (λ x, k))
  (at level 10, x name, m at level 100, k at level 200).

(** [try: m  except Exception as e: h(e)] *)
Definition try_except {World A} (m : M World A) (h : Exception → M World A)
  : M World A :=
  λ w, match m w with
       | (Ok a, w') => (Ok a, w')
       | (Raise e, w') => h e w'
       end.

(** [try: m  finally: f]: [f] runs in both cases, and an exception of [f]
    replaces the outcome of [m]. *)
Definition try_finally {World A} (m : M World A) (f : M World unit)
  : M World A :=
  λ w, match m w with
       | (r, w') =>
           match f w' with
           | (Ok _, w'') => (r, w'')
           | (Raise e, w'') => (Raise e, w'')
           end
       end.

(** ** os.path (posixpath) *)
Module os_path.

Definition sep : ascii := "/"%char.

(** [s.split('/')] *)
Fixpoint split (s : string) : list string :=
  match s with
  | EmptyString => [""]
  | String c r =>
      if Ascii.eqb c sep then "" :: split r
      else match split r with
           | x :: xs => String c x :: xs
           | [] => [String c ""]
           end
  end.

Definition isabs (s : string) : bool := Py.startswith s "/".

Definition endswith_sep (s : string) : bool :=
  Py.startswith (String.rev s) "/".

(** [os.path.join(a, b)] *)
Definition join (a b : string) : string :=
  if Py.startswith b "/" then b
  else if negb (Py.truthy a) || endswith_sep a then a +:+ b
  else a +:+ "/" +:+ b.

(** The loop body of [normpath]. *)
Definition normpath_step (initial_slashes : nat) (new_comps : list string)
    (comp : string) : list string :=
  if String.eqb comp "" || String.eqb comp "." then new_comps
  else if negb (String.eqb comp "..")
          || ((initial_slashes =? 0)%nat && bool_decide (new_comps = []))
          || (negb (bool_decide (new_comps = []))
              && bool_decide (last new_comps = Some ".."))
  then new_comps ++ [comp]
  else if negb (bool_decide (new_comps = [])) then removelast new_comps
  else new_comps.

Definition normpath (path : string) : string :=
  if negb (Py.truthy path) then "."
  else
    let initial_slashes : nat :=
      if Py.startswith path "/" then
        if Py.startswith path "//" && negb (Py.startswith path "///")
        then 2 else 1
      else 0 in
    let comps := fold_left (normpath_step initial_slashes) (split path) [] in
    let path := Py.join "/" comps in
    let path :=
      if (initial_slashes =? 0)%nat then path
      else Py.repeat sep initial_slashes +:+ path in
    Py.or_else path ".".

Fixpoint all_sep (s : string) : bool :=
  match s with
  | EmptyString => true
  | String c r => Ascii.eqb c sep && all_sep r
  end.

Fixpoint lstrip_sep (s : string) : string :=
  match s with
  | String c r => if Ascii.eqb c sep then lstrip_sep r else s
  | EmptyString => ""
  end.

(** [s.rstrip('/')] *)
Definition rstrip_sep (s : string) : string :=
  String.rev (lstrip_sep (String.rev s)).

(** [os.path.dirname(p)]: the text up to the last slash, without its
    trailing slashes unless it consists of slashes only. *)
Definition dirname (p : string) : string :=
  let comps := split p in
  let head :=
    match removelast comps with
    | [] => ""
    | cs => Py.join "/" cs +:+ "/"
    end in
  if Py.truthy head && negb (all_sep head) then rstrip_sep head else head.

End os_path.

(** ** The outside world

    [RouterDecision] is the structured output of the router's reasoning
    step; its field [next_agent] has the literal type [AGENTS]. *)
Record RouterDecision := mkRouterDecision {
  decision_next_agent : AGENTS;
  reasoning : string
}.

(** [subprocess.CompletedProcess] with captured text output. *)
Record CompletedProcess := mkCompletedProcess {
  stdout : string;
  stderr : string;
  returncode : Z
}.

(** The operations of the libraries and of the operating system that the
    sources call. Each one is a computation over the world; the reasoning
    backend, the process runner and the file system are not modelled further
    here. *)
Record System (World : Type) := mkSystem {
  (** [llm_with_tools.ainvoke(agent_messages)] of the agent of that name *)
  ainvoke : string → list Message → M World Message;
  (** [structured_llm.ainvoke(supervisor_messages)] *)
  structured_ainvoke : list Message → M World RouterDecision;
  (** the text of a dictionary inside an f-string *)
  format_dict : gmap string string → string;
  (** [os.getcwd()] *)
  getcwd : M World string;
  (** [os.makedirs(path, exist_ok=True)] *)
  makedirs : string → M World unit;
  (** [with open(path, 'w') as f: f.write(content)] *)
  write_text : string → string → M World unit;
  (** [with open(path, 'r') as f: return f.read()] *)
  read_text : string → M World string;
  (** the sorted lines that [list_directory] builds from [os.scandir] *)
  scandir_lines : string → M World (list string);
  (** the temporary file of [execute_python]: written, closed, its name *)
  write_tempfile : string → M World string;
  (** [subprocess.run(argv, capture_output=True, text=True, timeout=..,
      cwd=..)] *)
  subprocess_run : list string → Z → string → M World CompletedProcess;
  (** [os.unlink(path)] *)
  unlink : string → M World unit;
  sys_executable : string;
  gettempdir : string;
  (** the bodies of the capabilities that only call external services *)
  tavily_search : gmap string string → M World string;
  execute_sql : gmap string string → M World string;
  http_request : gmap string string → M World string
}.
Arguments ainvoke {World}.
Arguments structured_ainvoke {World}.
Arguments format_dict {World}.
Arguments getcwd {World}.
Arguments makedirs {World}.
Arguments write_text {World}.
Arguments read_text {World}.
Arguments scandir_lines {World}.
Arguments write_tempfile {World}.
Arguments subprocess_run {World}.
Arguments unlink {World}.
Arguments sys_executable {World}.
Arguments gettempdir {World}.
Arguments tavily_search {World}.
Arguments execute_sql {World}.
Arguments http_request {World}.

(** A capability bound to a worker: its name and [tool.invoke(args)]. *)
Record Tool (World : Type) := mkTool {
  name : string;
  invoke : gmap string string → M World string
}.
Arguments mkTool {World}.
Arguments name {World}.
Arguments invoke {World}.

(** ** tools.py *)
Module tools.
Section defs.
Context {World : Type} (sys : System World) (config : Config).

(** [os.path.abspath(path)] *)
Definition abspath (path : string) : M World string :=
  if negb (os_path.isabs path) then
    let* cwd := getcwd sys in
    ret (os_path.normpath (os_path.join cwd path))
  else ret (os_path.normpath path).

Definition execute_python (code : string) : M World string :=
  try_except
    (let* temp_path := write_tempfile sys code in
     try_finally
       (let* result :=
          subprocess_run sys [sys_executable sys; temp_path]
            (code_execution_timeout config) (gettempdir sys) in
        let output := "" in
        let output :=
          if Py.truthy (stdout result)
          then output +:+ "STDOUT:
" +:+ stdout result +:+ "
" else output in
        let output :=
          if Py.truthy (stderr result)
          then output +:+ "STDERR:
" +:+ stderr result +:+ "
" else output in
        let output :=
          if negb (returncode result =? 0)%Z
          then output +:+ "Exit code: " +:+ Py.str_of_Z (returncode result)
          else output in
        ret (Py.or_else (Py.strip output)
               "Code executed successfully (no output)"))
       (unlink sys temp_path))
    (λ e,
       match exc_class e with
       | TimeoutExpired =>
           ret ("Error: Code execution timed out after "
                +:+ Py.str_of_Z (code_execution_timeout config)
                +:+ " seconds")
       | _ => ret ("Execution error: " +:+ exc_str e)
       end).

(** [_validate_path]: [None], or the error message. *)
Definition _validate_path (path : string) : M World (option string) :=
  try_except
    (let* abs_path := abspath path in
     let* allowed := abspath (allowed_file_path config) in
     if negb (Py.startswith abs_path allowed) then
       ret (Some ("Error: Path '" +:+ path
                  +:+ "' is outside allowed directory '"
                  +:+ allowed_file_path config +:+ "'"))
     else ret None)
    (λ e, ret (Some ("Path validation error: " +:+ exc_str e))).

(** [if error := _validate_path(p): return error] followed by [body]. *)
Definition guarded (path : string) (body : M World string) : M World string :=
  let* error := _validate_path path in
  match error with
  | Some msg => if Py.truthy msg then ret msg else body
  | None => body
  end.

Definition read_file (file_path : string) : M World string :=
  guarded file_path
    (try_except (read_text sys file_path)
       (λ e,
          match exc_class e with
          | FileNotFoundError => ret ("Error: File not found: " +:+ file_path)
          | _ => ret ("Error reading file: " +:+ exc_str e)
          end)).

(** The [try] block of [write_file]. *)
Definition write_file_body (file_path content : string) : M World string :=
  let* _ := makedirs sys (os_path.dirname file_path) in
  let* _ := write_text sys file_path content in
  ret ("Successfully wrote " +:+ Py.str_of_nat (String.length content)
       +:+ " characters to " +:+ file_path).

Definition write_file (file_path content : string) : M World string :=
  guarded file_path
    (try_except (write_file_body file_path content)
       (λ e, ret ("Error writing file: " +:+ exc_str e))).

Definition list_directory (directory_path : string) : M World string :=
  guarded directory_path
    (try_except
       (let* entries := scandir_lines sys directory_path in
        ret (match entries with
             | [] => "Directory is empty"
             | _ => Py.join "
" entries
             end))
       (λ e,
          match exc_class e with
          | FileNotFoundError =>
              ret ("Error: Directory not found: " +:+ directory_path)
          | _ => ret ("Error listing directory: " +:+ exc_str e)
          end)).

(** What the decorator [@tool] adds: [invoke] reads the parameters of the
    function out of the argument dictionary and raises when a required one
    is absent. The text of that exception is the library's; the text here
    stands in for it. *)
Definition required (args : gmap string string) (key : string)
  : M World string :=
  match args !! key with
  | Some v => ret v
  | None => raise (mkException OtherError ("Field required: " +:+ key))
  end.

Definition tavily_search_tool : Tool World :=
  mkTool "tavily_search" (tavily_search sys).

Definition execute_python_tool : Tool World :=
  mkTool "execute_python"
    (λ args, let* code := required args "code" in execute_python code).

Definition read_file_tool : Tool World :=
  mkTool "read_file"
    (λ args, let* file_path := required args "file_path" in
             read_file file_path).

Definition write_file_tool : Tool World :=
  mkTool "write_file"
    (λ args, let* file_path := required args "file_path" in
             let* content := required args "content" in
             write_file file_path content).

Definition list_directory_tool : Tool World :=
  mkTool "list_directory"
    (λ args, let* directory_path := required args "directory_path" in
             list_directory directory_path).

Definition execute_sql_tool : Tool World :=
  mkTool "execute_sql" (execute_sql sys).

Definition http_request_tool : Tool World :=
  mkTool "http_request" (http_request sys).

Definition RESEARCH_TOOLS := [tavily_search_tool].
Definition CODE_TOOLS := [execute_python_tool].
Definition FILE_TOOLS := [read_file_tool; write_file_tool; list_directory_tool].
Definition DATABASE_TOOLS := [execute_sql_tool].
Definition API_TOOLS := [http_request_tool].

Definition AGENT_TOOLS : gmap string (list (Tool World)) :=
  list_to_map
    [ ("research", RESEARCH_TOOLS);
      ("code", CODE_TOOLS);
      ("files", FILE_TOOLS);
      ("database", DATABASE_TOOLS);
      ("api", API_TOOLS) ].

End defs.
End tools.

(** ** agents.py *)
Module agents.
Section defs.
Context {World : Type} (sys : System World).
(** The table [AGENT_TOOLS] imported from [src.tools]. *)
Variable AGENT_TOOLS : gmap string (list (Tool World)).

(** [state["messages"]] *)
Definition getitem_messages (state : AgentState) : M World (list Message) :=
  match messages state with
  | Some l => ret l
  | None => raise (mkException KeyError "'messages'")
  end.

Definition _get_agent_role (agent_name : string) : string :=
  let roles : gmap string string :=
    list_to_map
      [ ("research", "Search the web for information using Tavily. Find relevant data, articles, and facts to answer questions.");
        ("code", "Write and execute Python code to solve problems, perform calculations, and process data.");
        ("files", "Read, write, and manage files on the file system. Handle file operations safely.");
        ("database", "Execute SQL queries against databases. Create tables, insert data, and run queries.");
        ("api", "Make HTTP requests to external APIs. Handle REST endpoints, fetch data, and interact with web services.") ] in
  default "Assist with the task at hand." (roles !! agent_name).

Definition system_prompt (agent_name : string)
    (task_context : gmap string string) : string :=
  "You are a specialized " +:+ agent_name +:+ " agent.
Your role: " +:+ _get_agent_role agent_name +:+ "

Guidelines:
- Use your tools to complete the assigned task
- Be concise and focused on the specific task
- Report results clearly
- If you cannot complete the task, explain why

Current task context: " +:+ format_dict sys task_context.

(** The inner loop [for tool in tools]: the first tool of that name is
    invoked, its value or its exception is appended to [tool_results], and
    the loop breaks; when no tool has that name nothing is appended. *)
Fixpoint run_tool (tools : list (Tool World)) (tool_name : string)
    (tool_args : gmap string string) (tool_results : list ToolResult)
  : M World (list ToolResult) :=
  match tools with
  | [] => ret tool_results
  | tool :: rest =>
      if String.eqb (name tool) tool_name then
        try_except
          (let* value := invoke tool tool_args in
           ret (tool_results ++ [mkToolResult tool_name tool_args (result value)]))
          (λ e,
             ret (tool_results
                  ++ [mkToolResult tool_name tool_args (error (exc_str e))]))
      else run_tool rest tool_name tool_args tool_results
  end.

(** The outer loop [for tool_call in response.tool_calls]. *)
Fixpoint run_tool_calls (tools : list (Tool World)) (calls : list ToolCall)
    (tool_results : list ToolResult) : M World (list ToolResult) :=
  match calls with
  | [] => ret tool_results
  | tool_call :: rest =>
      let* tool_results :=
        run_tool tools (call_name tool_call) (call_args tool_call)
          tool_results in
      run_tool_calls tools rest tool_results
  end.

(** The line that one entry adds to the summary. *)
Definition summary_line (tr : ToolResult) : string :=
  match outcome tr with
  | error reason => "Tool " +:+ tool tr +:+ " failed: " +:+ reason +:+ "
"
  | result value => "Tool " +:+ tool tr +:+ ": " +:+ value +:+ "
"
  end.

Definition result_summary (agent_name : string)
    (tool_results : list ToolResult) : string :=
  fold_left (λ acc tr, acc +:+ summary_line tr) tool_results
    ("[" +:+ Py.upper agent_name +:+ " AGENT RESULTS]
").

(** [create_agent_node(agent_name)]: the node function [agent_node]. *)
Definition create_agent_node (agent_name : string) (state : AgentState)
  : M World AgentState :=
  let tools := default [] (AGENT_TOOLS !! agent_name) in
  let* messages := getitem_messages state in
  let task_context := default ∅ (task_context state) in
  let agent_messages :=
    [HumanMessage (system_prompt agent_name task_context)] ++ messages in
  let* response := ainvoke sys agent_name agent_messages in
  if negb (bool_decide (tool_calls response = [])) then
    let* tool_results := run_tool_calls tools (tool_calls response) [] in
    let final_message := AIMessage (result_summary agent_name tool_results) in
    let new_results := default [] (intermediate_results state) in
    let new_results := new_results ++ [mkTurnResult agent_name tool_results] in
    ret {| messages := Some [final_message];
           next_agent := None;
           task_context := None;
           intermediate_results := Some new_results |}
  else
    ret {| messages := Some [response];
           next_agent := None;
           task_context := None;
           intermediate_results := None |}.

Definition AGENT_NODES : list (string * (AgentState → M World AgentState)) :=
  [ ("research", create_agent_node "research");
    ("code", create_agent_node "code");
    ("files", create_agent_node "files");
    ("database", create_agent_node "database");
    ("api", create_agent_node "api") ].

End defs.
End agents.

(** ** supervisor.py *)
Module supervisor.
Section defs.
Context {World : Type} (sys : System World).

Definition agent_desc : string :=
  Py.join "
" (map (λ nd, "- " +:+ nd.1 +:+ ": " +:+ nd.2) AGENT_DESCRIPTIONS).

(** The summary of the work done so far. *)
Definition work_done (intermediate_results : list TurnResult) : string :=
  match intermediate_results with
  | [] => ""
  | _ =>
      fold_left
        (λ acc r,
           let tools_used := map tool (tool_results r) in
           acc +:+ "- " +:+ agent r +:+ " agent used: "
               +:+ Py.join ", " tools_used +:+ "
")
        intermediate_results
        "

Work completed so far:
"
  end.

Definition system_prompt (intermediate_results : list TurnResult)
    (task_context : gmap string string) : string :=
  "You are a supervisor agent that routes tasks to specialized agents.

Available agents:
" +:+ agent_desc +:+ "

Your job is to:
1. Analyze the user's request and conversation history
2. Determine which agent should handle the next step
3. Route to FINISH when the task is fully complete
" +:+ work_done intermediate_results +:+ "
Guidelines:
- Only route to agents that can make progress on the task
- Use research agent for web searches and information lookup
- Use code agent for calculations, data processing, or code generation
- Use files agent for reading/writing files
- Use database agent for SQL queries
- Use api agent for HTTP requests to external services
- Route to FINISH only when the user's request is fully addressed

Current task context: " +:+ format_dict sys task_context.

Definition supervisor_node (state : AgentState) : M World AgentState :=
  let* messages := agents.getitem_messages state in
  let intermediate_results := default [] (intermediate_results state) in
  let task_context := default ∅ (task_context state) in
  let supervisor_messages :=
    [HumanMessage (system_prompt intermediate_results task_context)]
    ++ messages in
  let* decision := structured_ainvoke sys supervisor_messages in
  let new_context := <["last_routing_reason" := reasoning decision]> task_context in
  ret {| messages := None;
         next_agent := Some (agent_id (decision_next_agent decision));
         task_context := Some new_context;
         intermediate_results := None |}.

End defs.
End supervisor.


(** ** graph.py *)
Module graph.
Section defs.
Context {World : Type} (sys : System World) (config : Config).

(** The sentinel [END] of the workflow library. *)
Definition END : string := "__end__".

Definition NodeFn : Type := AgentState → M World AgentState.

(** What [StateGraph] collects: nodes, plain edges, conditional edges (a
    routing function with its table from results to nodes) and the entry
    point. *)
Record StateGraph := mkStateGraph {
  nodes : gmap string NodeFn;
  edges : gmap string string;
  branches : gmap string ((AgentState → string) * gmap string string);
  entry_point : option string
}.

Definition empty_graph : StateGraph := mkStateGraph ∅ ∅ ∅ None.

Definition add_node (g : StateGraph) (node : string) (fn : NodeFn)
  : StateGraph :=
  mkStateGraph (<[node := fn]> (nodes g)) (edges g) (branches g) (entry_point g).

Definition add_edge (g : StateGraph) (source target : string) : StateGraph :=
  mkStateGraph (nodes g) (<[source := target]> (edges g)) (branches g)
    (entry_point g).

Definition add_conditional_edges (g : StateGraph) (source : string)
    (path : AgentState → string) (path_map : gmap string string)
  : StateGraph :=
  mkStateGraph (nodes g) (edges g) (<[source := (path, path_map)]> (branches g))
    (entry_point g).

Definition set_entry_point (g : StateGraph) (node : string) : StateGraph :=
  mkStateGraph (nodes g) (edges g) (branches g) (Some node).

(** Route to the next agent based on supervisor decision. *)
Definition route_to_agent (state : AgentState) : string :=
  let next_agent := default "FINISH" (next_agent state) in
  if String.eqb next_agent "FINISH" then END else next_agent.

(** The worker nodes, built over the tool table of [tools.py]. *)
Definition AGENT_NODES : list (string * NodeFn) :=
  agents.AGENT_NODES sys (tools.AGENT_TOOLS sys config).

Definition create_graph : StateGraph :=
  let graph := empty_graph in
  let graph := add_node graph "supervisor" (supervisor.supervisor_node sys) in
  let graph :=
    fold_left (λ g nf, add_node g nf.1 nf.2) AGENT_NODES graph in
  let graph :=
    add_conditional_edges graph "supervisor" route_to_agent
      (list_to_map
         [ ("research", "research");
           ("code", "code");
           ("files", "files");
           ("database", "database");
           ("api", "api");
           (END, END) ]) in
  let graph :=
    fold_left (λ g nf, add_edge g nf.1 "supervisor") AGENT_NODES graph in
  set_entry_point graph "supervisor".

(** *** The run of the compiled graph

    The engine belongs to the workflow library; what the sources rely on is
    modelled here: one node runs per step, its update is merged into the
    state, and the next node is the target of the conditional edge (the
    routing function applied to the merged state, looked up in the table) or
    of the plain edge. A routing result outside the table is an error; a node
    without outgoing edge ends the run. *)

(** One streamed item [{node_name: node_output}]. *)
Definition Chunk : Type := string * AgentState.

Definition step (g : StateGraph) (node : string) (state : AgentState)
  : M World (string * AgentState * Chunk) :=
  match nodes g !! node with
  | None => raise (mkException KeyError node)
  | Some fn =>
      let* update := fn state in
      let state' := merge state update in
      match branches g !! node with
      | Some (path, path_map) =>
          match path_map !! path state' with
          | Some target => ret (target, state', (node, update))
          | None => raise (mkException KeyError (path state'))
          end
      | None =>
          match edges g !! node with
          | Some target => ret (target, state', (node, update))
          | None => ret (END, state', (node, update))
          end
      end
  end.

(** How a stream ends: the graph reached [END], a node raised, or the
    number of steps given to the model ran out while the graph still runs. *)
Inductive StreamEnd :=
| Finished
| Crashed (e : Exception)
| Running (node : string).

Record Stream := mkStream {
  chunks : list Chunk;
  stream_end : StreamEnd;
  last_state : AgentState;
  world_after : World
}.

(** [workflow.astream(initial_state)], cut after [fuel] steps. *)
Fixpoint astream_from (g : StateGraph) (fuel : nat) (node : string)
    (state : AgentState) (w : World) : Stream :=
  if String.eqb node END then mkStream [] Finished state w
  else
    match fuel with
    | O => mkStream [] (Running node) state w
    | S fuel' =>
        match step g node state w with
        | (Ok (target, state', chunk), w') =>
            let rest := astream_from g fuel' target state' w' in
            mkStream (chunk :: chunks rest) (stream_end rest)
              (last_state rest) (world_after rest)
        | (Raise e, w') => mkStream [] (Crashed e) state w'
        end
    end.

Definition astream (g : StateGraph) (fuel : nat) (initial_state : AgentState)
    (w : World) : Stream :=
  match entry_point g with
  | Some node => astream_from g fuel node initial_state w
  | None =>
      mkStream [] (Crashed (mkException OtherError "no entry point"))
        initial_state w
  end.

(** The compiled graph. *)
Definition workflow : StateGraph := create_graph.

(** The step relation of the graph: [steps g c tr c'] when the run goes
    from the configuration [c] to [c'] and streams [tr]. *)
Definition Conf : Type := string * AgentState * World.

Inductive steps (g : StateGraph) : Conf → list Chunk → Conf → Prop :=
| steps_refl c : steps g c [] c
| steps_step node state w target state' chunk w' tr c'' :
    node ≠ END →
    step g node state w = (Ok (target, state', chunk), w') →
    steps g (target, state', w') tr c'' →
    steps g (node, state, w) (chunk :: tr) c''.

End defs.
End graph.

(** ** main.py *)
Module main.
Section defs.
Context {World : Type} (sys : System World) (config : Config).

(** How a call of [run_agent] ends. *)
Inductive Outcome :=
| Returned (response : string)
| Uncaught (e : Exception)
| StillRunning.

(** A call of [run_agent]: its outcome, the lines printed, the items that
    the workflow streamed (one per executed node) and the world left. *)
Record Run := mkRun {
  outcome_of : Outcome;
  printed : list string;
  executed : list graph.Chunk;
  world_of : World
}.

Definition banner : string := Py.repeat "="%char 60.

(** The lines printed for one streamed item when [verbose] is set. *)
Definition print_chunk (chunk : graph.Chunk) : list string :=
  let node_name := chunk.1 in
  let node_output := chunk.2 in
  (if String.eqb node_name "supervisor" then
     let next_agent := default "?" (next_agent node_output) in
     let reason :=
       default "" (default ∅ (task_context node_output) !! "last_routing_reason") in
     ["[SUPERVISOR] Routing to: " +:+ next_agent]
     ++ (if Py.truthy reason then ["  Reason: " +:+ reason] else [])
   else
     let messages := default [] (messages node_output) in
     match last messages with
     | Some m =>
         ["[" +:+ Py.upper node_name +:+ "] " +:+ Py.take 200 (content m) +:+ "..."]
     | None => []
     end)
  ++ [""].

(** The final response, taken from the last streamed item. *)
Definition final_response (final_state : option graph.Chunk) : string :=
  match final_state with
  | Some (_, node_output) =>
      match last (default [] (messages node_output)) with
      | Some m => content m
      | None => "No response generated"
      end
  | None => "No response generated"
  end.

(** The initial state that [run_agent] builds from the query. *)
Definition initial_state (query : string) : AgentState :=
  {| messages := Some [HumanMessage query];
     next_agent := Some "";
     task_context := Some {["original_query" := query]};
     intermediate_results := Some [] |}.

Definition run_agent (fuel : nat) (query : string) (verbose : bool)
    (w : World) : Run :=
  let missing := validate config in
  if negb (bool_decide (missing = [])) then
    mkRun
      (Returned ("Error: Missing required configuration: "
                 +:+ Py.join ", " missing))
      [] [] w
  else
    let initial_state := initial_state query in
    let header :=
      if verbose then
        ["
" +:+ banner; "Query: " +:+ query; banner +:+ "
"]
      else [] in
    let stream := graph.astream (graph.workflow sys config) fuel initial_state w in
    let lines :=
      if verbose then concat (map print_chunk (graph.chunks stream)) else [] in
    mkRun
      match graph.stream_end stream with
      | graph.Finished => Returned (final_response (last (graph.chunks stream)))
      | graph.Crashed e => Uncaught e
      | graph.Running _ => StillRunning
      end
      (header ++ lines)
      (graph.chunks stream)
      (graph.world_after stream).

End defs.
End main.

(** ** The program: the imports and [main()]

    Running [python -m src.main] first imports the modules. The import of
    [agents.py] calls [create_agent_node] for the five workers, and each
    call constructs its client ([llm = ChatOpenAI(...)]) before it defines
    the node function; only then does [main()] run. *)
Module startup.
Section defs.
Context {World : Type} (sys : System World) (config : Config).

(** [ChatOpenAI(model=.., temperature=.., api_key=..)], the constructor of
    the client library, for a model name and a key: it returns or raises. *)
Variable ChatOpenAI : string → string → M World unit.

(** What a call of the factory [create_agent_node(agent_name)] does before
    it returns the node function: the tools are looked up and the client is
    constructed from the global configuration. *)
Definition create_agent_node_client (agent_name : string) : M World unit :=
  ChatOpenAI (model_name config) (openai_api_key config).

(** The module-level statements of [agents.py]: the five factory calls. *)
Definition import_agents : M World unit :=
  let* _ := create_agent_node_client "research" in
  let* _ := create_agent_node_client "code" in
  let* _ := create_agent_node_client "files" in
  let* _ := create_agent_node_client "database" in
  let* _ := create_agent_node_client "api" in
  ret ().

(** How the process ends: normally, through [sys.exit], with the traceback
    of an uncaught exception, or not within the steps given to the model. *)
Inductive Exit :=
| ExitOk
| ExitStatus (status : Z)
| Traceback (e : Exception)
| NoExit.

Record Process := mkProcess {
  exit : Exit;
  stdout : list string;
  turns : list graph.Chunk;
  world_left : World
}.

Definition usage : list string :=
  [ "Usage: python -m src.main '<your query>'";
    "
Example:";
    "  python -m src.main 'What is the capital of France?'";
    "  python -m src.main 'Calculate the factorial of 10'" ].

(** [main()]: the CLI entry point, for the argument vector [sys.argv]. *)
Definition main (fuel : nat) (argv : list string) (w : World) : Process :=
  if (length argv <? 2)%nat then mkProcess (ExitStatus 1) usage [] w
  else
    let query := Py.join " " (drop 1 argv) in
    let run := main.run_agent sys config fuel query true w in
    match main.outcome_of run with
    | main.Returned response =>
        mkProcess ExitOk
          (main.printed run
           ++ ["
" +:+ main.banner; "FINAL RESULT:"; main.banner; response])
          (main.executed run) (main.world_of run)
    | main.Uncaught e =>
        mkProcess (Traceback e) (main.printed run) (main.executed run)
          (main.world_of run)
    | main.StillRunning =>
        mkProcess NoExit (main.printed run) (main.executed run)
          (main.world_of run)
    end.

(** [python -m src.main argv...]: the imports, then [main()]. *)
Definition run_module (fuel : nat) (argv : list string) (w : World) : Process :=
  match import_agents w with
  | (Raise e, w') => mkProcess (Traceback e) [] [] w'
  | (Ok _, w') => main fuel argv w'
  end.

End defs.
End startup.

(** ** A small concrete world

    An in-memory file system and a scripted reasoning backend, on which the
    definitions above run; the examples below evaluate the program here. *)
Module demo.

Record World := mkWorld {
  file_contents : gmap string string;
  directories : gset string;
  replies : list Message;
  decisions : list RouterDecision
}.

Definition unavailable : Exception := mkException OtherError "backend unavailable".

Definition pop_reply (_ : string) (_ : list Message) : M World Message :=
  λ w, match replies w with
       | r :: rest =>
           (Ok r, mkWorld (file_contents w) (directories w) rest (decisions w))
       | [] => (Raise unavailable, w)
       end.

Definition pop_decision (_ : list Message) : M World RouterDecision :=
  λ w, match decisions w with
       | d :: rest =>
           (Ok d, mkWorld (file_contents w) (directories w) (replies w) rest)
       | [] => (Raise unavailable, w)
       end.

Definition show_dict (m : gmap string string) : string :=
  "{" +:+ Py.join ", " (map (λ kv, "'" +:+ kv.1 +:+ "': '" +:+ kv.2 +:+ "'")
                          (map_to_list m)) +:+ "}".

Definition mkdir_p (path : string) : M World unit :=
  λ w, if Py.truthy path then
         (Ok (), mkWorld (file_contents w) ({[path]} ∪ directories w)
                   (replies w) (decisions w))
       else (Raise (mkException FileNotFoundError
                      "[Errno 2] No such file or directory: ''"), w).

Definition store (path text : string) : M World unit :=
  λ w, if bool_decide (os_path.dirname path ∈ directories w) then
         (Ok (), mkWorld (<[path := text]> (file_contents w)) (directories w)
                   (replies w) (decisions w))
       else (Raise (mkException FileNotFoundError
                      ("[Errno 2] No such file or directory: '" +:+ path +:+ "'")),
             w).

Definition load (path : string) : M World string :=
  λ w, match file_contents w !! path with
       | Some text => (Ok text, w)
       | None => (Raise (mkException FileNotFoundError
                           ("[Errno 2] No such file or directory: '"
                            +:+ path +:+ "'")), w)
       end.

Definition temp_name : string := "/tmp/tmpk3v9.py".

Definition store_temp (text : string) : M World string :=
  λ w, (Ok temp_name,
        mkWorld (<[temp_name := text]> (file_contents w)) (directories w)
          (replies w) (decisions w)).

Definition remove (path : string) : M World unit :=
  λ w, (Ok (), mkWorld (delete path (file_contents w)) (directories w)
                 (replies w) (decisions w)).

(** A process runner that knows two programs: an endless loop, which runs
    into the timeout, and a sum. *)
Definition run_process (argv : list string) (timeout : Z) (cwd : string)
  : M World CompletedProcess :=
  λ w, match file_contents w !! default "" (argv !! 1%nat) with
       | Some "while True: pass" =>
           (Raise (mkException TimeoutExpired "timed out"), w)
       | Some "print(2+2)" => (Ok (mkCompletedProcess "4
" "" 0), w)
       | Some _ => (Ok (mkCompletedProcess "" "" 0), w)
       | None =>
           (Ok (mkCompletedProcess "" "can't open file" 2), w)
       end.

Definition sys : System World :=
  {| ainvoke := pop_reply;
     structured_ainvoke := pop_decision;
     format_dict := show_dict;
     getcwd := ret "/home/user";
     makedirs := mkdir_p;
     write_text := store;
     read_text := load;
     scandir_lines := λ _, ret [];
     write_tempfile := store_temp;
     subprocess_run := run_process;
     unlink := remove;
     sys_executable := "/usr/bin/python3";
     gettempdir := "/tmp";
     tavily_search := λ _, raise (mkException OtherError "network unreachable");
     execute_sql := λ _, ret "Query returned no results";
     http_request := λ _, ret "Status: 200" |}.

Definition config : Config :=
  {| openai_api_key := "sk-test";
     model_name := "gpt-4o";
     tavily_api_key := "";
     database_url := "sqlite:///./data.db";
     allowed_file_path := "/tmp/data";
     code_execution_timeout := 30 |}.

(** The same configuration without the credential of the reasoning step. *)
Definition config_without_key : Config :=
  {| openai_api_key := "";
     model_name := "gpt-4o";
     tavily_api_key := "";
     database_url := "sqlite:///./data.db";
     allowed_file_path := "/tmp/data";
     code_execution_timeout := 30 |}.

Definition world0 : World := mkWorld ∅ {["/tmp"]} [] [].

Definition call (tool_name : string) (kvs : list (string * string)) : ToolCall :=
  mkToolCall tool_name (list_to_map kvs).

Definition asks (calls : list ToolCall) : Message := mkMessage ai "" calls.

(** The tool table of [tools.py] in this world. *)
Definition agent_tools : gmap string (list (Tool World)) :=
  tools.AGENT_TOOLS sys config.

(** The state at the start of the request [What is 2+2?]. *)
Definition state0 : AgentState := main.initial_state "What is 2+2?".

Definition sum_call : ToolCall := call "execute_python" [("code", "print(2+2)")].
Definition loop_call : ToolCall :=
  call "execute_python" [("code", "while True: pass")].
Definition bad_call : ToolCall := call "execute_python" [].
Definition unknown_call : ToolCall := call "no_such_tool" [].

(** Worlds in which the reasoning step of the worker replies with a plain
    answer, or asks for the calls listed. *)
Definition world_replying (reply : Message) : World :=
  mkWorld ∅ {["/tmp"]} [reply] [].

Definition world_asking (calls : list ToolCall) : World :=
  world_replying (asks calls).

(** A world in which the router picks the code worker and then finishes. *)
Definition world_routed : World :=
  mkWorld ∅ {["/tmp"]} [asks [sum_call]]
    [mkRouterDecision code "needs a calculation";
     mkRouterDecision FINISH "the answer is there"].

End demo.

(** ** Vocabulary of the statements about worker turns *)
Section vocabulary.
Context {World : Type}.

(** The entry that the loop records for a call and the outcome of its
    invocation. *)
Definition recorded (c : ToolCall) (o : Exc string) : ToolResult :=
  mkToolResult (call_name c) (call_args c)
    match o with
    | Ok value => result value
    | Raise e => error (exc_str e)
    end.

(** The first tool of a list that carries a name. *)
Definition bound (tools : list (Tool World)) (tool_name : string)
  : option (Tool World) :=
  find (λ t, String.eqb (name t) tool_name) tools.

Definition is_bound (tools : list (Tool World)) (c : ToolCall) : bool :=
  bool_decide (is_Some (bound tools (call_name c))).

(** The line of the summary that narrates a call and its outcome. *)
Definition narrated (c : ToolCall) (o : Exc string) : string :=
  match o with
  | Ok value => "Tool " +:+ call_name c +:+ ": " +:+ value +:+ "
"
  | Raise e => "Tool " +:+ call_name c +:+ " failed: " +:+ exc_str e +:+ "
"
  end.

Definition returned {A} (o : Exc A) : bool :=
  match o with Ok _ => true | Raise _ => false end.

(** An entry with the key ["result"], and one with the key ["error"]. *)
Definition is_success (tr : ToolResult) : bool :=
  match outcome tr with result _ => true | error _ => false end.

Definition is_failure (tr : ToolResult) : bool :=
  match outcome tr with result _ => false | error _ => true end.

(** The names of the worker nodes of the graph. *)
Definition worker_names : list string :=
  ["research"; "code"; "files"; "database"; "api"].

(** The length of the history of a state. *)
Definition history_length (state : AgentState) : nat :=
  length (default [] (messages state)).

End vocabulary.

(** ** tools.py: the capabilities that call external services

    [tavily_search], [execute_sql] and [http_request] down to the calls of
    their client libraries, which are the operations of [Clients]. *)
Module services.

(** What [http_request] reads of an [httpx] response: the status code, the
    text of [dict(response.headers)] and the body. *)
Record HttpResponse := mkHttpResponse {
  status_code : Z;
  headers_text : string;
  text : string
}.

(** [s.replace(old, new)] for a non-empty [old]: [skip] counts the
    characters of a match that are still to be dropped. *)
Fixpoint replace_from (old new : string) (skip : nat) (s : string) : string :=
  match s with
  | EmptyString => ""
  | String c r =>
      match skip with
      | S k => replace_from old new k r
      | O =>
          if String.prefix old s
          then new +:+ replace_from old new (String.length old - 1) r
          else String c (replace_from old new 0 r)
      end
  end.

Definition replace (s old new : string) : string := replace_from old new 0 s.

Section defs.
Context {World Conn Cursor : Type}.

Record Clients := mkClients {
  (** [TavilyClient(api_key=..).search(query=.., max_results=..)]: the
      list under ["results"] of the response, if the key is there *)
  tavily_client_search :
    string → string → Z → M World (option (list (gmap string string)));
  (** [httpx.Client(timeout=30.0).request(method, url, headers, content)] *)
  http_client_request :
    string → string → gmap string string → option string
    → M World HttpResponse;
  (** whether an exception is an [httpx.TimeoutException] *)
  is_timeout_exception : Exception → bool;
  (** [sqlite3.connect(db_path)] *)
  sqlite_connect : string → M World Conn;
  (** [cursor = conn.cursor(); cursor.execute(query)] *)
  cursor_execute : Conn → string → M World Cursor;
  (** [cursor.fetchall()], each value through [str] *)
  cursor_fetchall : Cursor → M World (list (list string));
  (** the column names of [cursor.description], if it is not [None] *)
  cursor_description : Cursor → option (list string);
  cursor_rowcount : Cursor → Z;
  conn_commit : Conn → M World unit;
  conn_close : Conn → M World unit
}.

Context (clients : Clients) (config : Config).

(** The text of one search result. *)
Definition format_item (item : gmap string string) : string :=
  "**" +:+ default "No title" (item !! "title") +:+ "**
" +:+ default "" (item !! "url") +:+ "
" +:+ default "" (item !! "content") +:+ "
".

Definition tavily_search (query : string) (max_results : Z) : M World string :=
  if negb (Py.truthy (tavily_api_key config)) then
    ret "Error: TAVILY_API_KEY not configured"
  else
    try_except
      (let* response :=
         tavily_client_search clients (tavily_api_key config) query
           max_results in
       let results := map format_item (default [] response) in
       ret (if negb (bool_decide (results = []))
            then Py.join "
---
" results
            else "No results found."))
      (λ e, ret ("Search error: " +:+ exc_str e)).

(** [query.strip().upper().startswith("SELECT")] *)
Definition is_select (query : string) : bool :=
  Py.startswith (Py.upper (Py.strip query)) "SELECT".

(** The [try] block of [execute_sql] after the connection is made. *)
Definition execute_sql_body (conn : Conn) (query : string) : M World string :=
  let* cursor := cursor_execute clients conn query in
  if is_select query then
    let* rows := cursor_fetchall clients cursor in
    let columns := default [] (cursor_description clients cursor) in
    if bool_decide (rows = []) then ret "Query returned no results"
    else
      let result :=
        Py.join " | " columns +:+ "
" +:+ Py.repeat "-"%char 40 +:+ "
" in
      ret (fold_left (λ acc row, acc +:+ (Py.join " | " row +:+ "
")) rows result)
  else
    let* _ := conn_commit clients conn in
    ret ("Query executed successfully. Rows affected: "
         +:+ Py.str_of_Z (cursor_rowcount clients cursor)).

(** [execute_sql]: when [sqlite3.connect] raises, [conn] is not bound and
    the [finally] clause closes nothing; otherwise the [finally] clause
    closes the connection after the [try] block or the [except] clause, and
    an exception of [conn.close()] leaves the function. *)
Definition execute_sql (query database_path : string) : M World string :=
  let db_path :=
    Py.or_else database_path (replace (database_url config) "sqlite:///" "") in
  λ w, match sqlite_connect clients db_path w with
       | (Raise e, w1) => (Ok ("SQL error: " +:+ exc_str e), w1)
       | (Ok conn, w1) =>
           try_finally
             (try_except (execute_sql_body conn query)
                (λ e, ret ("SQL error: " +:+ exc_str e)))
             (conn_close clients conn) w1
       end.

Definition http_request (url method : string)
    (headers : option (gmap string string)) (body : option string)
  : M World string :=
  try_except
    (let* response :=
       http_client_request clients (Py.upper method) url (default ∅ headers)
         body in
     let result := "Status: " +:+ Py.str_of_Z (status_code response) +:+ "
" in
     let result := result +:+ ("Headers: " +:+ headers_text response +:+ "
") in
     let result := result +:+ ("Body:
" +:+ Py.take 2000 (text response)) in
     let result :=
       if (2000 <? String.length (text response))%nat
       then result +:+ ("
... (truncated, "
                        +:+ Py.str_of_nat (String.length (text response))
                        +:+ " total chars)")
       else result in
     ret result)
    (λ e,
       if is_timeout_exception clients e
       then ret ("Error: Request to " +:+ url +:+ " timed out")
       else ret ("HTTP error: " +:+ exc_str e)).

End defs.

(** Clients for the examples: a search that finds what the query says, a
    server that echoes the method, and a data base of one table. *)
Definition demo_clients : @Clients demo.World unit (list (list string)) :=
  {| tavily_client_search := λ _ query _,
       if String.eqb query "" then ret (Some [])
       else ret (Some [ {["title" := query]} ]);
     http_client_request := λ method _ _ _,
       if String.eqb method "TRACE"
       then raise (mkException OtherError "timed out")
       else ret (mkHttpResponse 200 "{}" method);
     is_timeout_exception := λ e, String.eqb (exc_str e) "timed out";
     sqlite_connect := λ path,
       if String.eqb path "" then
         raise (mkException OtherError "unable to open database file")
       else ret ();
     cursor_execute := λ _ query,
       if String.eqb query "SELECT 1" then ret [["1"]] else ret [];
     cursor_fetchall := λ rows, ret rows;
     cursor_description := λ rows,
       match rows with [] => None | _ => Some ["1"] end;
     cursor_rowcount := λ _, (-1)%Z;
     conn_commit := λ _, ret ();
     conn_close := λ _, ret () |}.

(** The concrete configuration with a key for the search. *)
Definition demo_config : Config :=
  {| openai_api_key := "sk-test";
     model_name := "gpt-4o";
     tavily_api_key := "tvly-test";
     database_url := "sqlite:///./data.db";
     allowed_file_path := "/tmp/data";
     code_execution_timeout := 30 |}.

End services.

(** ** Vocabulary of the statements about runs and paths *)


(** Whether a path has a slash. *)
Fixpoint has_sep (s : string) : bool :=
  match s with
  | EmptyString => false
  | String c r => Ascii.eqb c os_path.sep || has_sep r
  end.

(** More scenarios on the concrete world. *)
Module scenarios.

(** The concrete configuration with the home directory as allowed root. *)
Definition config_home : Config :=
  {| openai_api_key := "sk-test";
     model_name := "gpt-4o";
     tavily_api_key := "";
     database_url := "sqlite:///./data.db";
     allowed_file_path := "/home/user";
     code_execution_timeout := 30 |}.

(** A world whose reasoning backend is down. *)
Definition world_down : demo.World := demo.world0.

(** A client constructor that insists on a key. *)
Definition ChatOpenAI (model key : string) : M demo.World unit :=
  if Py.truthy key then ret ()
  else raise (mkException OtherError
                "The api_key client option must be set either by passing api_key to the client or by setting the OPENAI_API_KEY environment variable").

(** A client constructor that accepts every key. *)
Definition ChatOpenAI_lenient (model key : string) : M demo.World unit :=
  ret ().

(** The concrete system on a file system where [os.unlink] fails. *)
Definition sys_unlink_fails : System demo.World :=
  {| ainvoke := ainvoke demo.sys;
     structured_ainvoke := structured_ainvoke demo.sys;
     format_dict := format_dict demo.sys;
     getcwd := getcwd demo.sys;
     makedirs := makedirs demo.sys;
     write_text := write_text demo.sys;
     read_text := read_text demo.sys;
     scandir_lines := scandir_lines demo.sys;
     write_tempfile := write_tempfile demo.sys;
     subprocess_run := subprocess_run demo.sys;
     unlink := λ _, raise (mkException OtherError
                             "[Errno 13] Permission denied");
     sys_executable := sys_executable demo.sys;
     gettempdir := gettempdir demo.sys;
     tavily_search := tavily_search demo.sys;
     execute_sql := execute_sql demo.sys;
     http_request := http_request demo.sys |}.

End scenarios.

(** * Properties *)

Example normpath_collapses :
  os_path.normpath "/tmp/../tmp//data/./x" = "/tmp/data/x".
Proof. reflexivity. Qed.

Example dirname_of_file : os_path.dirname "/tmp/database.txt" = "/tmp".
Proof. reflexivity. Qed.

Example dirname_without_slash : os_path.dirname "foo.txt" = "".
Proof. reflexivity. Qed.


(** ** The monad *)

Lemma bind_Ok {World A B} (m : M World A) (k : A → M World B) w a w' :
  m w = (Ok a, w') → bind m k w = k a w'.
Proof. intros H. unfold bind. by rewrite H. Qed.

Lemma bind_Raise {World A B} (m : M World A) (k : A → M World B) w e w' :
  m w = (Raise e, w') → bind m k w = (Raise e, w').
Proof. intros H. unfold bind. by rewrite H. Qed.

(** A computation that returns went through both halves of a bind. *)
Lemma bind_inv {World A B} (m : M World A) (k : A → M World B) w b w' :
  bind m k w = (Ok b, w') →
  ∃ a w1, m w = (Ok a, w1) ∧ k a w1 = (Ok b, w').
Proof.
  unfold bind. destruct (m w) as [[a|e] w1]; intros H.
  - by exists a, w1.
  - discriminate.
Qed.

Lemma ret_inv {World A} (a b : A) (w w' : World) :
  ret a w = (Ok b, w') → a = b ∧ w = w'.
Proof. unfold ret. by intros [= -> ->]. Qed.

(** ** Worker turns *)
Section agent_facts.
Context {World : Type} (sys : System World).
Variable AGENT_TOOLS : gmap string (list (Tool World)).

#[local] Abbreviation agent_node := (agents.create_agent_node sys AGENT_TOOLS).

Lemma run_tool_bound (tools : list (Tool World)) c acc t (w : World) :
  bound tools (call_name c) = Some t →
  agents.run_tool tools (call_name c) (call_args c) acc w
  = (Ok (acc ++ [recorded c (invoke t (call_args c) w).1]),
     (invoke t (call_args c) w).2).
Proof.
  unfold bound. induction tools as [|t0 tools IH]; simpl; [done|].
  destruct (String.eqb (name t0) (call_name c)).
  - intros [= ->]. unfold try_except, bind, ret, recorded.
    by destruct (invoke t (call_args c) w) as [[v|e] w1].
  - apply IH.
Qed.

Lemma run_tool_unbound (tools : list (Tool World)) tool_name tool_args acc (w : World) :
  bound tools tool_name = None →
  agents.run_tool tools tool_name tool_args acc w = (Ok acc, w).
Proof.
  unfold bound. induction tools as [|t0 tools IH]; simpl; [done|].
  destruct (String.eqb (name t0) tool_name); [done|apply IH].
Qed.

(** The loop over the requested calls never raises, keeps what was
    recorded before, and adds one entry per call whose name is bound, in
    the order of the calls. *)
Lemma run_tool_calls_spec (tools : list (Tool World)) calls acc (w : World) :
  ∃ new w',
    agents.run_tool_calls tools calls acc w = (Ok (acc ++ new), w')
    ∧ map (λ tr, (tool tr, args tr)) new
      = map (λ c, (call_name c, call_args c)) (filter (λ c, is_bound tools c) calls).
Proof.
  revert acc w. induction calls as [|c calls IH]; intros acc w; simpl.
  - exists [], w. by rewrite app_nil_r.
  - destruct (bound tools (call_name c)) as [t|] eqn:Hb.
    + rewrite (bind_Ok _ _ _ _ _ (run_tool_bound _ _ _ _ _ Hb)).
      destruct (IH (acc ++ [recorded c (invoke t (call_args c) w).1])
                   (invoke t (call_args c) w).2) as (new & w' & Hrun & Hmap).
      exists (recorded c (invoke t (call_args c) w).1 :: new), w'.
      split; [by rewrite Hrun, <- app_assoc|].
      rewrite filter_cons_True by (unfold is_bound; rewrite Hb; by apply bool_decide_pack).
      simpl. by rewrite Hmap.
    + rewrite (bind_Ok _ _ _ _ _ (run_tool_unbound _ _ _ _ _ Hb)).
      destruct (IH acc w) as (new & w' & Hrun & Hmap).
      exists new, w'. split; [done|].
      rewrite filter_cons_False; [done|].
      unfold is_bound. rewrite Hb. intros H%bool_decide_unpack. by destruct H.
Qed.

Lemma run_tool_acc (tools : list (Tool World)) tool_name tool_args acc
    (w : World) :
  agents.run_tool tools tool_name tool_args acc w
  = match agents.run_tool tools tool_name tool_args [] w with
    | (Ok new, w') => (Ok (acc ++ new), w')
    | (Raise e, w') => (Raise e, w')
    end.
Proof.
  induction tools as [|t tools IH]; simpl.
  - unfold ret. by rewrite app_nil_r.
  - destruct (String.eqb (name t) tool_name); [|apply IH].
    unfold try_except, bind, ret.
    by destruct (invoke t tool_args w) as [[v|e] w1].
Qed.

(** What the loop adds does not depend on what was recorded before. *)
Lemma run_tool_calls_acc (tools : list (Tool World)) calls acc (w : World) :
  agents.run_tool_calls tools calls acc w
  = match agents.run_tool_calls tools calls [] w with
    | (Ok new, w') => (Ok (acc ++ new), w')
    | (Raise e, w') => (Raise e, w')
    end.
Proof.
  revert acc w. induction calls as [|c calls IH]; intros acc w; simpl.
  - unfold ret. by rewrite app_nil_r.
  - unfold bind. rewrite (run_tool_acc _ _ _ acc).
    destruct (agents.run_tool tools (call_name c) (call_args c) [] w)
      as [[new|e] w1]; [|done].
    rewrite (IH (acc ++ new)), (IH new).
    destruct (agents.run_tool_calls tools calls [] w1) as [[new'|e] w2];
      [|done].
    by rewrite app_assoc.
Qed.

Lemma run_tool_calls_app (tools : list (Tool World)) l1 l2 acc (w : World) :
  agents.run_tool_calls tools (l1 ++ l2) acc w
  = (let* acc' := agents.run_tool_calls tools l1 acc in
     agents.run_tool_calls tools l2 acc') w.
Proof.
  revert acc w. induction l1 as [|c l1 IH]; intros acc w; simpl.
  - unfold bind, ret. done.
  - unfold bind in *.
    destruct (agents.run_tool tools (call_name c) (call_args c) acc w)
      as [[acc1|e] w1]; [|done].
    by rewrite IH.
Qed.

(** The two shapes of the update of a worker turn, read off the reply of
    the reasoning step. *)
Lemma agent_node_inv agent_name state w delta w' :
  agent_node agent_name state w = (Ok delta, w') →
  ∃ msgs response w1,
    messages state = Some msgs
    ∧ ainvoke sys agent_name
        ([HumanMessage (agents.system_prompt sys agent_name
                          (default ∅ (task_context state)))] ++ msgs) w
      = (Ok response, w1)
    ∧ ((tool_calls response = [] ∧ w' = w1
        ∧ delta = mkAgentState (Some [response]) None None None)
       ∨ (tool_calls response ≠ []
          ∧ ∃ trs,
              agents.run_tool_calls (default [] (AGENT_TOOLS !! agent_name))
                (tool_calls response) [] w1 = (Ok trs, w')
              ∧ delta
                = mkAgentState
                    (Some [AIMessage (agents.result_summary agent_name trs)])
                    None None
                    (Some (default [] (intermediate_results state)
                           ++ [mkTurnResult agent_name trs])))).
Proof.
  unfold agents.create_agent_node. intros H.
  apply bind_inv in H as (msgs & w0 & Hm & H).
  unfold agents.getitem_messages in Hm.
  destruct (messages state) as [l|] eqn:Hl; [|discriminate].
  apply ret_inv in Hm as [-> ->].
  apply bind_inv in H as (response & w1 & Hr & H).
  exists msgs, response, w1. split; [done|]. split; [done|].
  case_bool_decide as Hc; simpl in H.
  - left. apply ret_inv in H as [<- <-]. done.
  - right. split; [done|].
    apply bind_inv in H as (trs & w2 & Ht & H).
    apply ret_inv in H as [<- <-]. by exists trs.
Qed.

(** A worker turn returns whenever the history is there and the reasoning
    step replies; the reply decides between the two shapes of the update. *)
Lemma agent_node_run agent_name state w msgs response w1 :
  messages state = Some msgs →
  ainvoke sys agent_name
    ([HumanMessage (agents.system_prompt sys agent_name
                      (default ∅ (task_context state)))] ++ msgs) w
  = (Ok response, w1) →
  agent_node agent_name state w
  = (if negb (bool_decide (tool_calls response = [])) then
       let* trs :=
         agents.run_tool_calls (default [] (AGENT_TOOLS !! agent_name))
           (tool_calls response) [] in
       ret (mkAgentState
              (Some [AIMessage (agents.result_summary agent_name trs)])
              None None
              (Some (default [] (intermediate_results state)
                     ++ [mkTurnResult agent_name trs])))
     else ret (mkAgentState (Some [response]) None None None)) w1.
Proof.
  intros Hm Hr. unfold agents.create_agent_node, agents.getitem_messages.
  rewrite Hm. unfold bind at 1. unfold ret at 1.
  by rewrite (bind_Ok _ _ _ _ _ Hr).
Qed.

(** C5: the update that a worker turn returns never sets [next_agent] (nor
    the context); it holds one new message, which the merge appends to the
    history, and either no results or the prior results extended by one
    record, so that the merged state keeps the routing field and has the
    prior history and the prior results as prefixes. *)
Theorem worker_delta_frame agent_name state w delta w' :
  agent_node agent_name state w = (Ok delta, w') →
  next_agent delta = None
  ∧ task_context delta = None
  ∧ (∃ m, messages delta = Some [m]
          ∧ messages (merge state delta)
            = Some (default [] (messages state) ++ [m]))
  ∧ (intermediate_results delta = None
     ∨ ∃ r, intermediate_results delta
            = Some (default [] (intermediate_results state) ++ [r]))
  ∧ next_agent (merge state delta) = next_agent state
  ∧ default [] (intermediate_results state)
      `prefix_of` default [] (intermediate_results (merge state delta)).
Proof.
  intros H. apply agent_node_inv in H
    as (msgs & response & w1 & Hm & _ & [(_ & _ & ->)|(_ & trs & _ & ->)]);
    simpl; (repeat split; [by eexists|..]); try done.
  - by left.
  - right. by eexists.
  - by apply prefix_app_r.
Qed.

(** C4, amended: a worker turn appends a turn-result record exactly when
    the reasoning step asked for at least one invocation. With no request
    the update is the answer message alone and the merge leaves the results
    as they were; otherwise the update holds the summary message and the
    prior results extended by exactly one record of this worker. *)
Theorem worker_record_iff_requested agent_name state w msgs response w1 :
  messages state = Some msgs →
  ainvoke sys agent_name
    ([HumanMessage (agents.system_prompt sys agent_name
                      (default ∅ (task_context state)))] ++ msgs) w
  = (Ok response, w1) →
  ∃ delta w',
    agent_node agent_name state w = (Ok delta, w')
    ∧ (intermediate_results delta = None ↔ tool_calls response = [])
    ∧ (tool_calls response = [] →
       delta = mkAgentState (Some [response]) None None None
       ∧ intermediate_results (merge state delta) = intermediate_results state)
    ∧ (tool_calls response ≠ [] →
       ∃ trs,
         delta
         = mkAgentState
             (Some [AIMessage (agents.result_summary agent_name trs)])
             None None
             (Some (default [] (intermediate_results state)
                    ++ [mkTurnResult agent_name trs]))).
Proof.
  intros Hm Hr. rewrite (agent_node_run _ _ _ _ _ _ Hm Hr).
  case_bool_decide as Hc; simpl.
  - eexists _, w1. split; [done|]. simpl. by repeat split.
  - destruct (run_tool_calls_spec (default [] (AGENT_TOOLS !! agent_name))
                (tool_calls response) [] w1) as (trs & w' & Hrun & _).
    rewrite (bind_Ok _ _ _ _ _ Hrun). eexists _, w'. split; [done|]. simpl.
    split; [split; [discriminate|done]|]. split; [done|]. by eexists.
Qed.

(** C2, amended: when the reasoning step asks for invocations, the turn
    returns, and its invocation records are exactly the requested calls
    whose name is bound to this worker, in the order of the requests. A call
    whose name matches no bound tool leaves no record (and so no line in the
    summary, which is built from the records), and the calls after it are
    still processed. *)
Theorem unbound_call_leaves_no_record agent_name state w msgs response w1 :
  messages state = Some msgs →
  ainvoke sys agent_name
    ([HumanMessage (agents.system_prompt sys agent_name
                      (default ∅ (task_context state)))] ++ msgs) w
  = (Ok response, w1) →
  tool_calls response ≠ [] →
  ∃ trs w',
    agent_node agent_name state w
    = (Ok (mkAgentState
             (Some [AIMessage (agents.result_summary agent_name trs)])
             None None
             (Some (default [] (intermediate_results state)
                    ++ [mkTurnResult agent_name trs]))), w')
    ∧ map (λ tr, (tool tr, args tr)) trs
      = map (λ c, (call_name c, call_args c))
          (filter (λ c, is_bound (default [] (AGENT_TOOLS !! agent_name)) c)
             (tool_calls response)).
Proof.
  intros Hm Hr Hc. rewrite (agent_node_run _ _ _ _ _ _ Hm Hr).
  rewrite bool_decide_eq_false_2 by done. simpl.
  destruct (run_tool_calls_spec (default [] (AGENT_TOOLS !! agent_name))
              (tool_calls response) [] w1) as (trs & w' & Hrun & Hmap).
  rewrite (bind_Ok _ _ _ _ _ Hrun). by exists trs, w'.
Qed.

(** C3: in a turn with exactly two requested invocations of bound tools, of
    which one returns and the other raises, the update holds the summary
    message with both outcomes, each under its tool name (the value after
    [Tool name:], the reason after [Tool name failed:]), and one record with
    exactly two entries, one with a result and one with an error. *)
Theorem two_calls_one_fails agent_name state w msgs response w1 c1 c2 t1 t2 :
  messages state = Some msgs →
  ainvoke sys agent_name
    ([HumanMessage (agents.system_prompt sys agent_name
                      (default ∅ (task_context state)))] ++ msgs) w
  = (Ok response, w1) →
  tool_calls response = [c1; c2] →
  bound (default [] (AGENT_TOOLS !! agent_name)) (call_name c1) = Some t1 →
  bound (default [] (AGENT_TOOLS !! agent_name)) (call_name c2) = Some t2 →
  let r1 := invoke t1 (call_args c1) w1 in
  let r2 := invoke t2 (call_args c2) r1.2 in
  returned r1.1 = negb (returned r2.1) →
  let entries := [recorded c1 r1.1; recorded c2 r2.1] in
  agent_node agent_name state w
  = (Ok (mkAgentState
           (Some [AIMessage
                    ((("[" +:+ Py.upper agent_name +:+ " AGENT RESULTS]
") +:+ narrated c1 r1.1) +:+ narrated c2 r2.1)])
           None None
           (Some (default [] (intermediate_results state)
                  ++ [mkTurnResult agent_name entries]))), r2.2)
  ∧ length entries = 2
  ∧ length (filter is_success entries) = 1
  ∧ length (filter is_failure entries) = 1.
Proof.
  intros Hm Hr Hc Hb1 Hb2 r1 r2 Hone entries.
  assert (agents.run_tool_calls (default [] (AGENT_TOOLS !! agent_name))
            [c1; c2] [] w1 = (Ok entries, r2.2)) as Hrun.
  { simpl. rewrite (bind_Ok _ _ _ _ _ (run_tool_bound _ c1 [] _ w1 Hb1)).
    by rewrite (bind_Ok _ _ _ _ _ (run_tool_bound _ c2 _ _ _ Hb2)). }
  rewrite (agent_node_run _ _ _ _ _ _ Hm Hr), Hc.
  rewrite bool_decide_eq_false_2 by done. cbn [negb].
  rewrite (bind_Ok _ _ _ _ _ Hrun). subst entries. unfold ret.
  unfold agents.result_summary, agents.summary_line, recorded, narrated.
  destruct r1.1 as [v1|e1], r2.1 as [v2|e2]; simpl in Hone; try discriminate;
    by repeat split.
Qed.

End agent_facts.

(** ** Router turns *)
Section supervisor_facts.
Context {World : Type} (sys : System World).

(** The update of a supervisor turn that returns carries a decision of the
    reasoning step and the context. *)
Lemma supervisor_node_shape state w delta w' :
  supervisor.supervisor_node sys state w = (Ok delta, w') →
  ∃ decision,
    delta
    = mkAgentState None
        (Some (agent_id (decision_next_agent decision)))
        (Some (<["last_routing_reason" := reasoning decision]>
                 (default ∅ (task_context state))))
        None.
Proof.
  unfold supervisor.supervisor_node, bind, ret.
  destruct (agents.getitem_messages state w) as [[msgs|e] w0]; [|done].
  destruct (structured_ainvoke sys _ w0) as [[decision|e] w1]; [|done].
  intros [= <- <-]. by exists decision.
Qed.

(** C9: the update of a supervisor turn holds the routing field and the
    context only: [next_agent] is the decision of the reasoning step,
    [task_context] is the prior context with the rationale stored under
    ["last_routing_reason"], and neither ["messages"] nor
    ["intermediate_results"] is set, so the merge leaves the history and the
    results as they were. *)
Theorem supervisor_delta_frame state w delta w' :
  supervisor.supervisor_node sys state w = (Ok delta, w') →
  ∃ msgs decision,
    messages state = Some msgs
    ∧ structured_ainvoke sys
        ([HumanMessage
            (supervisor.system_prompt sys
               (default [] (intermediate_results state))
               (default ∅ (task_context state)))] ++ msgs) w
      = (Ok decision, w')
    ∧ delta
      = mkAgentState None
          (Some (agent_id (decision_next_agent decision)))
          (Some (<["last_routing_reason" := reasoning decision]>
                   (default ∅ (task_context state))))
          None
    ∧ messages (merge state delta) = messages state
    ∧ intermediate_results (merge state delta) = intermediate_results state.
Proof.
  unfold supervisor.supervisor_node. intros H.
  apply bind_inv in H as (msgs & w0 & Hm & H).
  unfold agents.getitem_messages in Hm.
  destruct (messages state) as [l|] eqn:Hl; [|discriminate].
  apply ret_inv in Hm as [-> ->].
  apply bind_inv in H as (decision & w1 & Hd & H).
  apply ret_inv in H as [<- <-].
  exists msgs, decision. by repeat split.
Qed.

End supervisor_facts.

(** ** The workflow graph *)
Section graph_facts.
Context {World : Type} (sys : System World) (config : Config).

#[local] Abbreviation workflow := (graph.workflow sys config).

Ltac lookup_at node key :=
  destruct (decide (node = key)) as [->|?];
  [rewrite lookup_insert_eq | rewrite lookup_insert_ne by done].

Lemma workflow_nodes node :
  graph.nodes workflow !! node
  = if bool_decide (node = "supervisor") then
      Some (supervisor.supervisor_node sys)
    else if bool_decide (node ∈ worker_names) then
      Some (agents.create_agent_node sys (tools.AGENT_TOOLS sys config) node)
    else None.
Proof.
  cbv [graph.workflow graph.create_graph graph.AGENT_NODES agents.AGENT_NODES
       fold_left graph.add_node graph.add_edge graph.add_conditional_edges
       graph.set_entry_point graph.empty_graph graph.nodes graph.edges
       graph.branches fst snd].
  lookup_at node "api"; [done|].
  lookup_at node "database"; [done|].
  lookup_at node "files"; [done|].
  lookup_at node "code"; [done|].
  lookup_at node "research"; [done|].
  lookup_at node "supervisor"; [done|].
  rewrite lookup_empty, bool_decide_eq_false_2 by done.
  rewrite bool_decide_eq_false_2; [done|].
  unfold worker_names. rewrite !elem_of_cons, elem_of_nil.
  by intros [?|[?|[?|[?|[?|[]]]]]].
Qed.

Lemma workflow_edges node :
  graph.edges workflow !! node
  = if bool_decide (node ∈ worker_names) then Some "supervisor" else None.
Proof.
  cbv [graph.workflow graph.create_graph graph.AGENT_NODES agents.AGENT_NODES
       fold_left graph.add_node graph.add_edge graph.add_conditional_edges
       graph.set_entry_point graph.empty_graph graph.nodes graph.edges
       graph.branches fst snd].
  lookup_at node "api"; [done|].
  lookup_at node "database"; [done|].
  lookup_at node "files"; [done|].
  lookup_at node "code"; [done|].
  lookup_at node "research"; [done|].
  rewrite lookup_empty.
  rewrite bool_decide_eq_false_2; [done|].
  unfold worker_names. rewrite !elem_of_cons, elem_of_nil.
  by intros [?|[?|[?|[?|[?|[]]]]]].
Qed.

Lemma workflow_branches node :
  graph.branches workflow !! node
  = if bool_decide (node = "supervisor") then
      Some (graph.route_to_agent,
            list_to_map
              [ ("research", "research"); ("code", "code");
                ("files", "files"); ("database", "database");
                ("api", "api"); (graph.END, graph.END) ])
    else None.
Proof.
  cbv [graph.workflow graph.create_graph graph.AGENT_NODES agents.AGENT_NODES
       fold_left graph.add_node graph.add_edge graph.add_conditional_edges
       graph.set_entry_point graph.empty_graph graph.nodes graph.edges
       graph.branches fst snd].
  lookup_at node "supervisor"; [done|].
  by rewrite lookup_empty, bool_decide_eq_false_2.
Qed.

(** Where the routing function sends a state whose routing field was
    written by the router. *)
Lemma route_after_decision state a :
  next_agent state = Some (agent_id a) →
  graph.route_to_agent state
  = match a with FINISH => graph.END | _ => agent_id a end.
Proof. unfold graph.route_to_agent. intros ->. by destruct a. Qed.

(** The table of the conditional edge has every routing result of a
    decision. *)
Lemma path_map_target a :
  (list_to_map
     [ ("research", "research"); ("code", "code"); ("files", "files");
       ("database", "database"); ("api", "api"); (graph.END, graph.END) ]
   : gmap string string)
  !! match a with FINISH => graph.END | _ => agent_id a end
  = Some match a with FINISH => graph.END | _ => agent_id a end.
Proof. by destruct a. Qed.

(** One step of the workflow is a supervisor turn followed by the routing
    function, or a worker turn followed by the edge back to the
    supervisor. *)
Lemma step_inv node state w target state' chunk w' :
  graph.step workflow node state w = (Ok (target, state', chunk), w') →
  ∃ delta,
    chunk = (node, delta) ∧ state' = merge state delta
    ∧ ((node = "supervisor"
        ∧ supervisor.supervisor_node sys state w = (Ok delta, w')
        ∧ ∃ a, next_agent delta = Some (agent_id a)
               ∧ next_agent state' = Some (agent_id a)
               ∧ target = graph.route_to_agent state'
               ∧ target = match a with FINISH => graph.END | _ => agent_id a end)
       ∨ (node ∈ worker_names
          ∧ agents.create_agent_node sys (tools.AGENT_TOOLS sys config) node
              state w = (Ok delta, w')
          ∧ target = "supervisor")).
Proof.
  unfold graph.step. rewrite workflow_nodes, workflow_branches, workflow_edges.
  case_bool_decide as Hs.
  - subst node. intros H. apply bind_inv in H as (delta & w1 & Hd & H).
    exists delta.
    destruct (supervisor_node_shape sys _ _ _ _ Hd) as (dec & Hdelta).
    assert (next_agent (merge state delta)
            = Some (agent_id (decision_next_agent dec))) as Hn
      by (by rewrite Hdelta).
    assert (next_agent delta = Some (agent_id (decision_next_agent dec)))
      as Hn' by (by rewrite Hdelta).
    rewrite (route_after_decision _ _ Hn), path_map_target in H.
    apply ret_inv in H as [[= <- <- <-] <-].
    split; [done|]. split; [done|]. left. split; [done|]. split; [done|].
    exists (decision_next_agent dec).
    by rewrite (route_after_decision _ _ Hn).
  - case_bool_decide as Hw; [|intros; discriminate].
    intros H. apply bind_inv in H as (delta & w1 & Hd & H).
    apply ret_inv in H as [[= <- <- <-] <-].
    exists delta. split; [done|]. split; [done|]. by right.
Qed.

Lemma entry_point_workflow : graph.entry_point workflow = Some "supervisor".
Proof. reflexivity. Qed.

(** Every step appends to the history or leaves it alone. *)
Lemma step_history node state w target state' chunk w' :
  graph.step workflow node state w = (Ok (target, state', chunk), w') →
  (history_length state ≤ history_length state')%nat.
Proof.
  intros H. apply step_inv in H as (delta & _ & -> & [(_ & H & _)|(_ & H & _)]).
  - apply supervisor_node_shape in H as (dec & ->). done.
  - apply agent_node_inv in H
      as (msgs & r & w1 & Hm & _ & [(_ & _ & ->)|(_ & trs & _ & ->)]);
      unfold history_length, merge, add_messages; simpl;
      rewrite length_app; lia.
Qed.

(** After any number of steps the routing field is the initial one or a
    decision of the router. *)
Lemma steps_next_agent c tr c' :
  graph.steps workflow c tr c' →
  next_agent c'.1.2 = next_agent c.1.2
  ∨ ∃ a, next_agent c'.1.2 = Some (agent_id a).
Proof.
  induction 1 as [c|node state w target state' chunk w' tr c'' Hne Hs Hr IH];
    [by left|].
  destruct IH as [IH|IH]; [|by right]. rewrite IH. simpl.
  apply step_inv in Hs as (delta & _ & -> & [(_ & _ & a & _ & Ha & _)|(_ & H & _)]).
  - right. by exists a.
  - left. by apply agent_node_inv in H
      as (msgs & r & w1 & _ & _ & [(_ & _ & ->)|(_ & trs & _ & ->)]).
Qed.

(** The run is at [END] exactly when the last streamed item is a
    supervisor update that sets ["FINISH"]. *)
Lemma steps_end c tr c' :
  graph.steps workflow c tr c' →
  tr ≠ [] →
  c'.1.1 = graph.END
  ↔ ∃ d, last tr = Some ("supervisor", d) ∧ next_agent d = Some "FINISH".
Proof.
  induction 1 as [c|node state w target state' chunk w' tr c'' Hne Hs Hr IH];
    [done|]. intros _.
  destruct tr as [|chunk' tr].
  - inversion Hr; subst. simpl.
    apply step_inv in Hs
      as (delta & -> & _ & [(-> & _ & a & Ha & _ & _ & ->)|(Hw & _ & ->)]).
    + split.
      * intros He. exists delta. split; [done|]. rewrite Ha.
        by destruct a.
      * intros (d & [= <-] & Hd). rewrite Ha in Hd. by destruct a.
    + split; [done|]. intros (d & [= -> <-] & _).
      unfold worker_names in Hw. rewrite !elem_of_cons, elem_of_nil in Hw.
      by destruct Hw as [?|[?|[?|[?|[?|[]]]]]].
  - by rewrite IH.
Qed.

(** With enough steps allowed, the executable run follows the relation up
    to [END]. *)
Lemma steps_astream node state w tr state' w' fuel :
  graph.steps workflow (node, state, w) tr (graph.END, state', w') →
  (length tr ≤ fuel)%nat →
  graph.astream_from workflow fuel node state w
  = graph.mkStream tr graph.Finished state' w'.
Proof.
  intros H. remember (node, state, w) as c eqn:Hc.
  remember (graph.END, state', w') as c' eqn:Hc'.
  revert node state w fuel Hc.
  induction H as [c|node0 state0 w0 target state1 chunk w1 tr c'' Hne Hs Hr IH];
    intros node state w fuel Hc Hlen; subst.
  - injection Hc as <- <- <-. by destruct fuel.
  - injection Hc as <- <- <-.
    destruct fuel as [|fuel]; [simpl in Hlen; lia|]. simpl.
    rewrite (proj2 (String.eqb_neq _ _) Hne), Hs.
    rewrite (IH eq_refl _ _ _ fuel eq_refl) by (simpl in Hlen; lia). done.
Qed.

(** Conversely, a run that finished took steps of the relation. *)
Lemma astream_steps fuel node state w :
  graph.stream_end (graph.astream_from workflow fuel node state w)
  = graph.Finished →
  graph.steps workflow (node, state, w)
    (graph.chunks (graph.astream_from workflow fuel node state w))
    (graph.END,
     graph.last_state (graph.astream_from workflow fuel node state w),
     graph.world_after (graph.astream_from workflow fuel node state w)).
Proof.
  revert node state w. induction fuel as [|fuel IH]; intros node state w.
  - simpl. destruct (String.eqb_spec node graph.END) as [->|Hne]; [|done].
    intros _. apply graph.steps_refl.
  - simpl. destruct (String.eqb_spec node graph.END) as [->|Hne].
    + intros _. apply graph.steps_refl.
    + destruct (graph.step workflow node state w)
        as [[[[target state1] chunk]|e] w1] eqn:Hs; [|done].
      simpl. intros Hfin. eapply graph.steps_step; [done|done|by apply IH].
Qed.

(** C1: in every configuration that the workflow reaches from the entry
    point and the initial state of a request, the routing function sends
    the state to [END] exactly when [next_agent] is ["FINISH"] (or absent);
    the run is at [END] exactly when the last turn is a supervisor turn
    that set ["FINISH"]; once there, the executable run finishes with this
    trace whenever it is allowed that many steps; and a step of a worker
    node that returns always leads back to the supervisor. *)
Theorem orchestrator_done_iff_finish query w tr node' state' w' :
  graph.steps workflow ("supervisor", main.initial_state query, w) tr
    (node', state', w') →
  (graph.route_to_agent state' = graph.END
   ↔ default "FINISH" (next_agent state') = "FINISH")
  ∧ (node' = graph.END
     ↔ ∃ d, last tr = Some ("supervisor", d) ∧ next_agent d = Some "FINISH")
  ∧ (node' = graph.END →
     ∀ fuel, (length tr ≤ fuel)%nat →
       graph.astream workflow fuel (main.initial_state query) w
       = graph.mkStream tr graph.Finished state' w')
  ∧ (∀ node s w0 target s1 chunk w1,
       node ∈ worker_names →
       graph.step workflow node s w0 = (Ok (target, s1, chunk), w1) →
       target = "supervisor").
Proof.
  intros H. split; [|split; [|split]].
  - destruct (steps_next_agent _ _ _ H) as [Hn|[a Hn]]; simpl in Hn;
      unfold graph.route_to_agent; rewrite Hn; [done|by destruct a].
  - destruct tr as [|chunk tr].
    + inversion H; subst. split; [done|]. by intros (d & ? & _).
    + by apply (steps_end _ _ _ H).
  - intros -> fuel Hlen. unfold graph.astream. rewrite entry_point_workflow.
    by apply steps_astream.
  - intros node s w0 target s1 chunk w1 Hw Hs.
    apply step_inv in Hs as (delta & _ & _ & [(-> & _)|(_ & _ & ->)]); [|done].
    unfold worker_names in Hw. rewrite !elem_of_cons, elem_of_nil in Hw.
    by destruct Hw as [?|[?|[?|[?|[?|[]]]]]].
Qed.

(** C6: along any run of the workflow, whatever the node and the state it
    starts from, the history of the state reached is at least as long as
    the history at the start: every completed supervisor or worker turn
    leaves the length of ["messages"] unchanged or larger. *)
Theorem history_never_shrinks node state w tr node' state' w' :
  graph.steps workflow (node, state, w) tr (node', state', w') →
  (history_length state ≤ history_length state')%nat.
Proof.
  intros H. remember (node, state, w) as c eqn:Hc.
  remember (node', state', w') as c' eqn:Hc'.
  revert node state w Hc.
  induction H as [c|node0 state0 w0 target state1 chunk w1 tr c'' Hne Hs Hr IH];
    intros node state w Hc; subst.
  - by injection Hc as <- <- <-.
  - injection Hc as <- <- <-.
    etrans; [by eapply step_history|]. by eapply IH.
Qed.

End graph_facts.

(** ** The entry point *)

Lemma validate_with_key config :
  openai_api_key config ≠ "" → validate config = [].
Proof. unfold validate. by destruct (openai_api_key config). Qed.

(** Once [run_agent] is called with the credential of the reasoning step
    absent, [validate] returns the list with the name of the missing value,
    and [run_agent] returns the explanatory message at once: no node of the
    workflow is executed, nothing is printed and the world is left as it
    was, whatever the backend, the query and the number of steps allowed. *)
Lemma missing_key_aborts_before_any_turn config :
  openai_api_key config = "" →
  validate config = ["OPENAI_API_KEY"]
  ∧ ∀ (World : Type) (sys : System World) fuel query verbose (w : World),
      main.run_agent sys config fuel query verbose w
      = main.mkRun
          (main.Returned "Error: Missing required configuration: OPENAI_API_KEY")
          [] [] w.
Proof.
  intros Hkey.
  assert (validate config = ["OPENAI_API_KEY"]) as Hv
    by (unfold validate; by rewrite Hkey).
  split; [done|]. intros World sys fuel query verbose w.
  unfold main.run_agent. by rewrite Hv.
Qed.

(** ** Capabilities *)
Section tool_facts.
Context {World : Type} (sys : System World) (config : Config).

(** [execute_python] never raises: every exception of its body is turned
    into a returned text. *)
Lemma execute_python_returns code w :
  ∃ text w', tools.execute_python sys config code w = (Ok text, w').
Proof.
  unfold tools.execute_python, try_except.
  match goal with |- context [match ?m w with _ => _ end] =>
    destruct (m w) as [[text|e] w1] end.
  - by exists text, w1.
  - destruct (exc_class e); by eexists _, _.
Qed.

(** A run that hits the timeout, with the temporary file written before and
    removed after, returns the timeout message. *)
Lemma execute_python_timeout code w path w1 e w2 w3 :
  write_tempfile sys code w = (Ok path, w1) →
  subprocess_run sys [sys_executable sys; path]
    (code_execution_timeout config) (gettempdir sys) w1 = (Raise e, w2) →
  exc_class e = TimeoutExpired →
  unlink sys path w2 = (Ok (), w3) →
  tools.execute_python sys config code w
  = (Ok ("Error: Code execution timed out after "
         +:+ Py.str_of_Z (code_execution_timeout config) +:+ " seconds"), w3).
Proof.
  intros Ht Hr He Hu. unfold tools.execute_python, try_except.
  rewrite (bind_Ok _ _ _ _ _ Ht). unfold try_finally.
  rewrite (bind_Raise _ _ _ _ _ Hr), Hu, He. done.
Qed.

Lemma code_tools :
  default [] (tools.AGENT_TOOLS sys config !! "code") = tools.CODE_TOOLS sys config.
Proof. reflexivity. Qed.

End tool_facts.

Section timeout_facts.
Context {World : Type} (sys : System World) (config : Config).

(** The text that [execute_python] returns after a timeout of the
    subprocess, by the outcome of the removal of the temporary file: the
    timeout message, or the message of the exception that [os.unlink]
    raised in the [finally] clause. *)
Lemma execute_python_after_timeout code w path w1 e w2 :
  write_tempfile sys code w = (Ok path, w1) →
  subprocess_run sys [sys_executable sys; path]
    (code_execution_timeout config) (gettempdir sys) w1 = (Raise e, w2) →
  exc_class e = TimeoutExpired →
  tools.execute_python sys config code w
  = (Ok match (unlink sys path w2).1 with
        | Ok _ =>
            "Error: Code execution timed out after "
            +:+ Py.str_of_Z (code_execution_timeout config) +:+ " seconds"
        | Raise e' =>
            match exc_class e' with
            | TimeoutExpired =>
                "Error: Code execution timed out after "
                +:+ Py.str_of_Z (code_execution_timeout config) +:+ " seconds"
            | _ => "Execution error: " +:+ exc_str e'
            end
        end,
     (unlink sys path w2).2).
Proof.
  intros Ht Hr He. unfold tools.execute_python, try_except.
  rewrite (bind_Ok _ _ _ _ _ Ht). unfold try_finally.
  rewrite (bind_Raise _ _ _ _ _ Hr).
  destruct (unlink sys path w2) as [[[]|e'] w3]; simpl.
  - by rewrite He.
  - by destruct (exc_class e').
Qed.

(** C7, amended: an invocation of the code-execution capability whose
    subprocess runs into the configured timeout is not dropped: the turn
    records one entry for it, at its place among the entries of the turn.
    The entry carries the key ["result"], not ["error"]: [execute_python]
    catches the exception and returns a text, which the summary narrates as
    the value of the tool. The text is [Error: Code execution timed out
    after N seconds] when the removal of the temporary file succeeds; when
    [os.unlink] raises in the [finally] clause, its exception replaces the
    timeout and the text is [Execution error:] with the message of that
    exception. *)
Theorem timeout_is_recorded_as_result
    state w msgs response w1 pre c post code trs_pre w2 path w3 e w4 :
  messages state = Some msgs →
  ainvoke sys "code"
    ([HumanMessage (agents.system_prompt sys "code"
                      (default ∅ (task_context state)))] ++ msgs) w
  = (Ok response, w1) →
  tool_calls response = pre ++ c :: post →
  call_name c = "execute_python" →
  call_args c !! "code" = Some code →
  agents.run_tool_calls (tools.CODE_TOOLS sys config) pre [] w1
  = (Ok trs_pre, w2) →
  write_tempfile sys code w2 = (Ok path, w3) →
  subprocess_run sys [sys_executable sys; path]
    (code_execution_timeout config) (gettempdir sys) w3 = (Raise e, w4) →
  exc_class e = TimeoutExpired →
  let timed_out :=
    "Error: Code execution timed out after "
    +:+ Py.str_of_Z (code_execution_timeout config) +:+ " seconds" in
  let text :=
    match (unlink sys path w4).1 with
    | Ok _ => timed_out
    | Raise e' =>
        match exc_class e' with
        | TimeoutExpired => timed_out
        | _ => "Execution error: " +:+ exc_str e'
        end
    end in
  let entry := mkToolResult "execute_python" (call_args c) (result text) in
  ∃ trs_post w',
    agents.create_agent_node sys (tools.AGENT_TOOLS sys config) "code" state w
    = (Ok (mkAgentState
             (Some [AIMessage
                      (agents.result_summary "code"
                         (trs_pre ++ entry :: trs_post))])
             None None
             (Some (default [] (intermediate_results state)
                    ++ [mkTurnResult "code" (trs_pre ++ entry :: trs_post)]))),
       w')
    ∧ is_success entry = true
    ∧ is_failure entry = false
    ∧ agents.summary_line entry = "Tool execute_python: " +:+ text +:+ "
"
    ∧ ((unlink sys path w4).1 = Ok () → text = timed_out).
Proof.
  intros Hm Hr Hc Hname Hcode Hpre Ht Hrun He timed_out text entry.
  assert (invoke (tools.execute_python_tool sys config) (call_args c) w2
          = (Ok text, (unlink sys path w4).2)) as Hinv.
  { simpl. unfold tools.required. rewrite Hcode. unfold bind at 1, ret at 1.
    by rewrite (execute_python_after_timeout _ _ _ _ _ _ Ht Hrun He). }
  assert (agents.run_tool (tools.CODE_TOOLS sys config) (call_name c)
            (call_args c) trs_pre w2
          = (Ok (trs_pre ++ [entry]), (unlink sys path w4).2)) as Hc1.
  { rewrite (run_tool_bound (tools.CODE_TOOLS sys config) c trs_pre
               (tools.execute_python_tool sys config) w2)
      by (unfold bound; by rewrite Hname).
    rewrite Hinv. unfold recorded. simpl. by rewrite Hname. }
  destruct (run_tool_calls_spec (tools.CODE_TOOLS sys config) post
              (trs_pre ++ [entry]) (unlink sys path w4).2)
    as (trs_post & w' & Hpost & _).
  assert (agents.run_tool_calls (tools.CODE_TOOLS sys config)
            (pre ++ c :: post) [] w1
          = (Ok (trs_pre ++ entry :: trs_post), w')) as Hall.
  { rewrite run_tool_calls_app, (bind_Ok _ _ _ _ _ Hpre). simpl.
    rewrite (bind_Ok _ _ _ _ _ Hc1), Hpost. by rewrite <- app_assoc. }
  exists trs_post, w'. split; [|split; [done|split; [done|split; [done|]]]].
  - rewrite (agent_node_run sys _ _ _ _ _ _ _ Hm Hr), Hc.
    rewrite bool_decide_eq_false_2 by (by destruct pre). cbn [negb].
    rewrite code_tools. by rewrite (bind_Ok _ _ _ _ _ Hall).
  - subst text. by intros ->.
Qed.

End timeout_facts.

(** ** Path confinement *)

Lemma abspath_absolute {World : Type} (sys : System World) path (w : World) :
  os_path.isabs path = true →
  tools.abspath sys path w = (Ok (os_path.normpath path), w).
Proof. unfold tools.abspath. by intros ->. Qed.

(** C10: [_validate_path] accepts a path exactly when its absolute form
    starts, as a string, with the absolute form of the allowed root. So with
    the root [/tmp/data] the sibling [/tmp/database.txt], which is not below
    the root (the components of the root are no prefix of its components),
    is accepted, and [write_file] goes on to create the directory [/tmp] and
    to write the file; in the concrete world the file is there afterwards. *)
Theorem path_confinement_is_prefix_check :
  (∀ (World : Type) (sys : System World) config path (w : World),
     (tools._validate_path sys config path w).1 = Ok None
     ↔ ∃ abs_path allowed w1 w2,
         tools.abspath sys path w = (Ok abs_path, w1)
         ∧ tools.abspath sys (allowed_file_path config) w1 = (Ok allowed, w2)
         ∧ Py.startswith abs_path allowed = true)
  ∧ (∀ (World : Type) (sys : System World) key model tavily url timeout
       content (w : World),
       let config := mkConfig key model tavily url "/tmp/data" timeout in
       tools._validate_path sys config "/tmp/database.txt" w = (Ok None, w)
       ∧ tools.write_file sys config "/tmp/database.txt" content w
         = try_except
             (let* _ := makedirs sys "/tmp" in
              let* _ := write_text sys "/tmp/database.txt" content in
              ret ("Successfully wrote "
                   +:+ Py.str_of_nat (String.length content)
                   +:+ " characters to " +:+ "/tmp/database.txt"))
             (λ e, ret ("Error writing file: " +:+ exc_str e)) w)
  ∧ ¬ (os_path.split "/tmp/data" `prefix_of` os_path.split "/tmp/database.txt")
  ∧ (tools.write_file demo.sys demo.config "/tmp/database.txt" "hello"
       demo.world0).1
    = Ok "Successfully wrote 5 characters to /tmp/database.txt"
  ∧ demo.file_contents
      (tools.write_file demo.sys demo.config "/tmp/database.txt" "hello"
         demo.world0).2 !! "/tmp/database.txt"
    = Some "hello".
Proof.
  split; [|split; [|split; [|split]]].
  - intros World sys config path w.
    unfold tools._validate_path, try_except, bind, ret.
    destruct (tools.abspath sys path w) as [[a|e] w1] eqn:H1; simpl.
    + destruct (tools.abspath sys (allowed_file_path config) w1)
        as [[r|e] w2] eqn:H2; simpl.
      * destruct (Py.startswith a r) eqn:Hp; simpl.
        -- split; [|done]. intros _. by exists a, r, w1, w2.
        -- split; [done|].
           intros (a' & r' & w1' & w2' & [= <- <-] & H2' & Hs).
           rewrite H2 in H2'. injection H2' as <- <-. congruence.
      * split; [done|].
        intros (a' & r' & w1' & w2' & [= <- <-] & H2' & _). congruence.
    + split; [done|]. by intros (? & ? & ? & ? & ? & _).
  - intros World sys key model tavily url timeout content w config.
    split; reflexivity.
  - intros [k Hk]. vm_compute in Hk. discriminate.
  - vm_compute. reflexivity.
  - vm_compute. reflexivity.
Qed.

Example validate_path_rejects_other_tree :
  tools._validate_path demo.sys demo.config "/etc/passwd" demo.world0
  = (Ok (Some "Error: Path '/etc/passwd' is outside allowed directory '/tmp/data'"),
     demo.world0).
Proof. reflexivity. Qed.

Example validate_path_accepts_below_root :
  tools._validate_path demo.sys demo.config "/tmp/data/notes/a.txt" demo.world0
  = (Ok None, demo.world0).
Proof. reflexivity. Qed.

(** ** The theorems at work on the concrete world *)

(** Instance of C5: a worker turn of the code agent. *)
Lemma worker_delta_frame_witness :
  next_agent
    (merge demo.state0
       (mkAgentState
          (Some [AIMessage "[CODE AGENT RESULTS]
Tool execute_python: STDOUT:
4
"])
          None None
          (Some [mkTurnResult "code"
                   [mkToolResult "execute_python" (call_args demo.sum_call)
                      (result "STDOUT:
4")]])))
  = next_agent demo.state0.
Proof.
  eapply (worker_delta_frame demo.sys demo.agent_tools "code" demo.state0
            (demo.world_asking [demo.sum_call])).
  vm_compute. reflexivity.
Defined.

(** Counterexample to C2 as stated: the code worker is asked for a call of
    a tool that is not bound to it and then for a sum. The turn records the
    sum only; no entry with the reason [tool not found] exists for the
    unknown tool, and the summary does not mention it. *)
Lemma unbound_call_is_dropped :
  bound (default [] (demo.agent_tools !! "code")) (call_name demo.unknown_call)
  = None
  ∧ ∃ trs,
      (agents.create_agent_node demo.sys demo.agent_tools "code" demo.state0
         (demo.world_asking [demo.unknown_call; demo.sum_call])).1
      = Ok (mkAgentState
              (Some [AIMessage "[CODE AGENT RESULTS]
Tool execute_python: STDOUT:
4
"])
              None None (Some [mkTurnResult "code" trs]))
      ∧ trs = [mkToolResult "execute_python" (call_args demo.sum_call)
                 (result "STDOUT:
4")]
      ∧ mkToolResult (call_name demo.unknown_call)
          (call_args demo.unknown_call) (error "tool not found") ∉ trs.
Proof.
  split; [reflexivity|]. eexists. split; [vm_compute; reflexivity|].
  split; [reflexivity|]. by intros [[=]|[]%elem_of_nil]%elem_of_cons.
Qed.

(** Instance of C2, amended, on the same turn. *)
Lemma unbound_call_leaves_no_record_witness :
  ∃ trs w',
    agents.create_agent_node demo.sys demo.agent_tools "code" demo.state0
      (demo.world_asking [demo.unknown_call; demo.sum_call])
    = (Ok (mkAgentState
             (Some [AIMessage (agents.result_summary "code" trs)])
             None None
             (Some (default [] (intermediate_results demo.state0)
                    ++ [mkTurnResult "code" trs]))), w')
    ∧ map (λ tr, (tool tr, args tr)) trs
      = [(call_name demo.sum_call, call_args demo.sum_call)].
Proof.
  destruct (unbound_call_leaves_no_record demo.sys demo.agent_tools "code"
              demo.state0
              (demo.world_asking [demo.unknown_call; demo.sum_call])
              [HumanMessage "What is 2+2?"]
              (demo.asks [demo.unknown_call; demo.sum_call])
              demo.world0)
    as (trs & w' & Hrun & Hmap).
  - reflexivity.
  - reflexivity.
  - discriminate.
  - exists trs, w'. split; [exact Hrun|]. rewrite Hmap. reflexivity.
Defined.

(** Instance of C3: the sum returns, the call without its argument raises. *)
Lemma two_calls_one_fails_witness :
  (agents.create_agent_node demo.sys demo.agent_tools "code" demo.state0
     (demo.world_asking [demo.sum_call; demo.bad_call])).1
  = Ok (mkAgentState
          (Some [AIMessage "[CODE AGENT RESULTS]
Tool execute_python: STDOUT:
4
Tool execute_python failed: Field required: code
"])
          None None
          (Some [mkTurnResult "code"
                   [mkToolResult "execute_python" (call_args demo.sum_call)
                      (result "STDOUT:
4");
                    mkToolResult "execute_python" (call_args demo.bad_call)
                      (error "Field required: code")]])).
Proof.
  edestruct (two_calls_one_fails demo.sys demo.agent_tools "code" demo.state0
               (demo.world_asking [demo.sum_call; demo.bad_call]))
    as [H _].
  - reflexivity.
  - reflexivity.
  - reflexivity.
  - reflexivity.
  - reflexivity.
  - vm_compute. reflexivity.
  - rewrite H. vm_compute. reflexivity.
Defined.

(** Counterexample to C4 as stated: the code worker is asked for one call,
    of a tool that is not bound to it. No invocation is performed (the
    record has no entry), and yet a turn-result record is appended. *)
Lemma record_without_invocation :
  bound (default [] (demo.agent_tools !! "code")) (call_name demo.unknown_call)
  = None
  ∧ (agents.create_agent_node demo.sys demo.agent_tools "code" demo.state0
       (demo.world_asking [demo.unknown_call])).1
    = Ok (mkAgentState
            (Some [AIMessage "[CODE AGENT RESULTS]
"])
            None None (Some [mkTurnResult "code" []]))
  ∧ (agents.create_agent_node demo.sys demo.agent_tools "code" demo.state0
       (demo.world_asking [demo.unknown_call])).2
    = demo.world0.
Proof. split; [reflexivity|]. split; vm_compute; reflexivity. Qed.

(** Instance of C4, amended: a plain answer adds no record. *)
Lemma worker_record_iff_requested_witness :
  ∃ delta w',
    agents.create_agent_node demo.sys demo.agent_tools "code" demo.state0
      (demo.world_replying (AIMessage "4")) = (Ok delta, w')
    ∧ (intermediate_results delta = None ↔ tool_calls (AIMessage "4") = [])
    ∧ (tool_calls (AIMessage "4") = [] →
       delta = mkAgentState (Some [AIMessage "4"]) None None None
       ∧ intermediate_results (merge demo.state0 delta)
         = intermediate_results demo.state0)
    ∧ (tool_calls (AIMessage "4") ≠ [] →
       ∃ trs,
         delta
         = mkAgentState
             (Some [AIMessage (agents.result_summary "code" trs)])
             None None
             (Some (default [] (intermediate_results demo.state0)
                    ++ [mkTurnResult "code" trs]))).
Proof.
  eapply (worker_record_iff_requested demo.sys demo.agent_tools "code"
            demo.state0 (demo.world_replying (AIMessage "4"))).
  - reflexivity.
  - reflexivity.
Defined.

(** Counterexample to C7 as stated: the subprocess of the call runs into
    the timeout, and the entry that the turn records for it carries a
    result, not an error. *)
Lemma timeout_entry_is_not_a_failure :
  (demo.run_process ["/usr/bin/python3"; demo.temp_name] 30 "/tmp"
     (demo.store_temp "while True: pass" demo.world0).2).1
  = Raise (mkException TimeoutExpired "timed out")
  ∧ ∃ entry,
      (agents.create_agent_node demo.sys demo.agent_tools "code" demo.state0
         (demo.world_asking [demo.loop_call])).1
      = Ok (mkAgentState
              (Some [AIMessage "[CODE AGENT RESULTS]
Tool execute_python: Error: Code execution timed out after 30 seconds
"])
              None None (Some [mkTurnResult "code" [entry]]))
      ∧ outcome entry
        = result "Error: Code execution timed out after 30 seconds"
      ∧ is_failure entry = false.
Proof.
  split; [vm_compute; reflexivity|]. eexists. split; [vm_compute; reflexivity|].
  split; reflexivity.
Qed.

(** Instance of C7, amended, on the same turn. *)
Lemma timeout_is_recorded_as_result_witness :
  ∃ trs_post w',
    agents.create_agent_node demo.sys demo.agent_tools "code" demo.state0
      (demo.world_asking [demo.loop_call])
    = (Ok (mkAgentState
             (Some [AIMessage
                      (agents.result_summary "code"
                         ([] ++ mkToolResult "execute_python"
                                  (call_args demo.loop_call)
                                  (result ("Error: Code execution timed out after "
                                           +:+ Py.str_of_Z 30 +:+ " seconds"))
                             :: trs_post))])
             None None
             (Some (default [] (intermediate_results demo.state0)
                    ++ [mkTurnResult "code"
                          ([] ++ mkToolResult "execute_python"
                                   (call_args demo.loop_call)
                                   (result ("Error: Code execution timed out after "
                                            +:+ Py.str_of_Z 30 +:+ " seconds"))
                              :: trs_post)]))), w').
Proof.
  destruct (timeout_is_recorded_as_result demo.sys demo.config demo.state0
              (demo.world_asking [demo.loop_call])
              [HumanMessage "What is 2+2?"] (demo.asks [demo.loop_call])
              demo.world0 [] demo.loop_call [] "while True: pass" []
              demo.world0 demo.temp_name
              (demo.store_temp "while True: pass" demo.world0).2
              (mkException TimeoutExpired "timed out")
              (demo.store_temp "while True: pass" demo.world0).2)
    as (trs_post & w' & H & _).
  - reflexivity.
  - reflexivity.
  - reflexivity.
  - reflexivity.
  - reflexivity.
  - reflexivity.
  - reflexivity.
  - reflexivity.
  - reflexivity.
  - by exists trs_post, w'.
Defined.

(** The call of [run_agent] under the configuration without the key. *)
Lemma missing_key_aborts_before_any_turn_witness :
  openai_api_key demo.config_without_key = ""
  ∧ validate demo.config_without_key = ["OPENAI_API_KEY"]
  ∧ main.run_agent demo.sys demo.config_without_key 10 "What is 2+2?" true
      demo.world_routed
    = main.mkRun
        (main.Returned "Error: Missing required configuration: OPENAI_API_KEY")
        [] [] demo.world_routed.
Proof.
  split; [reflexivity|].
  destruct (missing_key_aborts_before_any_turn demo.config_without_key eq_refl)
    as [Hv Hrun].
  split; [exact Hv|]. apply Hrun.
Defined.

(** With the key, the same request runs the router, the code worker and
    the router again. *)
Example run_with_key_executes_turns :
  map fst (main.executed
             (main.run_agent demo.sys demo.config 10 "What is 2+2?" true
                demo.world_routed))
  = ["supervisor"; "code"; "supervisor"].
Proof. vm_compute. reflexivity. Qed.

(** Instance of C9: the first router turn of the request. *)
Lemma supervisor_delta_frame_witness :
  (supervisor.supervisor_node demo.sys demo.state0 demo.world_routed).1
  = Ok (mkAgentState None (Some "code")
          (Some (<["last_routing_reason" := "needs a calculation"]>
                   {["original_query" := "What is 2+2?"]}))
          None)
  ∧ messages
      (merge demo.state0
         (mkAgentState None (Some "code")
            (Some (<["last_routing_reason" := "needs a calculation"]>
                     {["original_query" := "What is 2+2?"]}))
            None))
    = messages demo.state0.
Proof.
  split; [vm_compute; reflexivity|].
  edestruct (supervisor_delta_frame demo.sys demo.state0 demo.world_routed)
    as (msgs & decision & _ & _ & _ & H & _);
    [vm_compute; reflexivity|exact H].
Defined.

(** The run of the request in the world where the router picks the code
    worker and then finishes. *)
Lemma routed_run_steps :
  graph.steps (graph.workflow demo.sys demo.config)
    ("supervisor", demo.state0, demo.world_routed)
    (graph.chunks
       (graph.astream_from (graph.workflow demo.sys demo.config) 5
          "supervisor" demo.state0 demo.world_routed))
    (graph.END,
     graph.last_state
       (graph.astream_from (graph.workflow demo.sys demo.config) 5
          "supervisor" demo.state0 demo.world_routed),
     graph.world_after
       (graph.astream_from (graph.workflow demo.sys demo.config) 5
          "supervisor" demo.state0 demo.world_routed)).
Proof. apply astream_steps. vm_compute. reflexivity. Qed.

(** Instance of C1: that run is at [END], and its last turn is the router
    turn that set ["FINISH"]. *)
Lemma orchestrator_done_iff_finish_witness :
  map fst
    (graph.chunks
       (graph.astream_from (graph.workflow demo.sys demo.config) 5
          "supervisor" demo.state0 demo.world_routed))
  = ["supervisor"; "code"; "supervisor"]
  ∧ ∃ d,
      last (graph.chunks
              (graph.astream_from (graph.workflow demo.sys demo.config) 5
                 "supervisor" demo.state0 demo.world_routed))
      = Some ("supervisor", d)
      ∧ next_agent d = Some "FINISH".
Proof.
  split; [vm_compute; reflexivity|].
  destruct (orchestrator_done_iff_finish demo.sys demo.config "What is 2+2?"
              demo.world_routed _ _ _ _ routed_run_steps)
    as (_ & [Hend _] & _).
  apply Hend. reflexivity.
Defined.

(** Instance of C6: over that run the history grows from one message to
    two. *)
Lemma history_never_shrinks_witness :
  history_length demo.state0 = 1%nat
  ∧ history_length
      (graph.last_state
         (graph.astream_from (graph.workflow demo.sys demo.config) 5
            "supervisor" demo.state0 demo.world_routed))
    = 2%nat
  ∧ (history_length demo.state0
     ≤ history_length
         (graph.last_state
            (graph.astream_from (graph.workflow demo.sys demo.config) 5
               "supervisor" demo.state0 demo.world_routed)))%nat.
Proof.
  split; [reflexivity|]. split; [vm_compute; reflexivity|].
  exact (history_never_shrinks demo.sys demo.config _ _ _ _ _ _ _
           routed_run_steps).
Defined.

(** * Further properties of the code *)

(** ** Code execution *)
Section execute_python_facts.
Context {World : Type} (sys : System World) (config : Config).

Lemma or_else_truthy a b :
  Py.truthy b = true → Py.truthy (Py.or_else a b) = true.
Proof. unfold Py.or_else. by destruct (Py.truthy a) eqn:Ha. Qed.

Lemma truthy_nonempty s : Py.truthy s = true → s ≠ "".
Proof. by destruct s. Qed.

(** What [try_finally] returns, its body returned. *)
Lemma try_finally_inv {A} (m : M World A) (f : M World unit) w a w' :
  try_finally m f w = (Ok a, w') → ∃ w1, m w = (Ok a, w1).
Proof.
  unfold try_finally. destruct (m w) as [r w1].
  destruct (f w1) as [[[]|e] w2]; [|done]. intros [= -> <-]. by exists w1.
Qed.

(** X1: [execute_python] never raises, whatever the temporary file, the
    subprocess and the removal do, and the text it returns is never
    empty. *)
Theorem execute_python_returns_text code w :
  ∃ text w',
    tools.execute_python sys config code w = (Ok text, w') ∧ text ≠ "".
Proof.
  unfold tools.execute_python, try_except.
  match goal with |- context [match ?m w with _ => _ end] =>
    destruct (m w) as [[text|e] w1] eqn:Hbody end.
  - exists text, w1. split; [done|].
    apply bind_inv in Hbody as (path & w2 & _ & Hbody).
    apply try_finally_inv in Hbody as (w3 & Hbody).
    apply bind_inv in Hbody as (r & w4 & _ & Hbody).
    apply ret_inv in Hbody as [<- _].
    by apply truthy_nonempty, or_else_truthy.
  - destruct (exc_class e); eexists _, _; (split; [done|]);
      by apply truthy_nonempty.
Qed.

(** X2: once the temporary file is written, [execute_python] always ends
    with its removal: the world it leaves is the world after [os.unlink],
    applied to the world that the subprocess left, whether the subprocess
    completed, failed or ran into the timeout. If the removal itself raises,
    its exception replaces the output of the program in the text
    returned. *)
Theorem execute_python_always_unlinks code w path w1 :
  write_tempfile sys code w = (Ok path, w1) →
  let after_run :=
    (subprocess_run sys [sys_executable sys; path]
       (code_execution_timeout config) (gettempdir sys) w1).2 in
  (tools.execute_python sys config code w).2
  = (unlink sys path after_run).2
  ∧ ∀ e,
      (unlink sys path after_run).1 = Raise e →
      (tools.execute_python sys config code w).1
      = Ok match exc_class e with
           | TimeoutExpired =>
               "Error: Code execution timed out after "
               +:+ Py.str_of_Z (code_execution_timeout config) +:+ " seconds"
           | _ => "Execution error: " +:+ exc_str e
           end.
Proof.
  intros Ht after_run. subst after_run.
  unfold tools.execute_python, try_except.
  rewrite (bind_Ok _ _ _ _ _ Ht). unfold try_finally, bind, ret.
  destruct (subprocess_run sys _ _ _ w1) as [[r|e0] w2]; simpl;
    destruct (unlink sys path w2) as [[[]|e1] w3]; simpl.
  - split; [done|]. by intros e.
  - split; [by destruct (exc_class e1)|]. intros e [= ->].
    by destruct (exc_class e).
  - split; [by destruct (exc_class e0)|]. by intros e.
  - split; [by destruct (exc_class e1)|]. intros e [= ->].
    by destruct (exc_class e).
Qed.

End execute_python_facts.

(** ** File capabilities *)
Section file_facts.
Context {World : Type} (sys : System World) (config : Config).

(** [_validate_path] never raises. *)
Lemma validate_path_returns path w :
  ∃ r w', tools._validate_path sys config path w = (Ok r, w').
Proof.
  unfold tools._validate_path, try_except.
  match goal with |- context [match ?m w with _ => _ end] =>
    destruct (m w) as [[r|e] w1] end; by eexists _, _.
Qed.

(** An error message of [_validate_path] is never the empty string. *)
Lemma validate_path_message path w msg w' :
  tools._validate_path sys config path w = (Ok (Some msg), w') →
  Py.truthy msg = true.
Proof.
  unfold tools._validate_path, try_except, bind, ret.
  destruct (tools.abspath sys path w) as [[a|e] w1]; simpl.
  - destruct (tools.abspath sys (allowed_file_path config) w1)
      as [[r|e] w2]; simpl.
    + destruct (Py.startswith a r); simpl; [done|]. by intros [= <- <-].
    + by intros [= <- <-].
  - by intros [= <- <-].
Qed.

Lemma guarded_rejected path body w msg w' :
  tools._validate_path sys config path w = (Ok (Some msg), w') →
  tools.guarded sys config path body w = (Ok msg, w').
Proof.
  intros H. unfold tools.guarded. rewrite (bind_Ok _ _ _ _ _ H).
  by rewrite (validate_path_message _ _ _ _ H).
Qed.

Lemma guarded_accepted path body w w' :
  tools._validate_path sys config path w = (Ok None, w') →
  tools.guarded sys config path body w = body w'.
Proof. intros H. unfold tools.guarded. by rewrite (bind_Ok _ _ _ _ _ H). Qed.

Lemma guarded_returns path body w :
  (∀ w1, ∃ text w', body w1 = (Ok text, w')) →
  ∃ text w', tools.guarded sys config path body w = (Ok text, w').
Proof.
  intros Hbody. destruct (validate_path_returns path w) as ([msg|] & w1 & H).
  - rewrite (guarded_rejected _ _ _ _ _ H). by eexists _, _.
  - rewrite (guarded_accepted _ _ _ _ H). apply Hbody.
Qed.

(** X3: the three file capabilities never raise: whatever the file system
    does (missing file, permission, a failing [os.getcwd]), [read_file],
    [write_file] and [list_directory] return a text. *)
Theorem file_tools_never_raise path content w :
  (∃ text w', tools.read_file sys config path w = (Ok text, w'))
  ∧ (∃ text w', tools.write_file sys config path content w = (Ok text, w'))
  ∧ (∃ text w', tools.list_directory sys config path w = (Ok text, w')).
Proof.
  split; [|split]; apply guarded_returns; intros w1; unfold try_except.
  - destruct (read_text sys path w1) as [[t|e] w2]; [by eexists _, _|].
    destruct (exc_class e); by eexists _, _.
  - destruct (tools.write_file_body sys path content w1) as [[t|e] w2];
      by eexists _, _.
  - match goal with |- context [match ?m w1 with _ => _ end] =>
      destruct (m w1) as [[t|e] w2] end; [by eexists _, _|].
    destruct (exc_class e); by eexists _, _.
Qed.

(** X4: a path that [_validate_path] rejects reaches no file operation: each
    of the three file capabilities returns the message of the validation
    and leaves the world as the validation left it (nothing is read,
    created, written or listed). *)
Theorem rejected_path_touches_nothing path content w msg w' :
  tools._validate_path sys config path w = (Ok (Some msg), w') →
  tools.read_file sys config path w = (Ok msg, w')
  ∧ tools.write_file sys config path content w = (Ok msg, w')
  ∧ tools.list_directory sys config path w = (Ok msg, w').
Proof.
  intros H. repeat split; by apply guarded_rejected.
Qed.

Lemma split_without_sep s : has_sep s = false → os_path.split s = [s].
Proof.
  induction s as [|c s IH]; simpl; [done|].
  destruct (Ascii.eqb c os_path.sep); simpl; [done|].
  intros Hs. by rewrite (IH Hs).
Qed.

Lemma dirname_without_sep s : has_sep s = false → os_path.dirname s = "".
Proof.
  intros Hs. unfold os_path.dirname. by rewrite (split_without_sep _ Hs).
Qed.

(** X5: [write_file] on an accepted path without any slash (a bare file
    name) asks [os.makedirs] for the empty path, the directory part of the
    name; when that call raises, as it does for the empty path, the file
    is not written and the text returned is [Error writing file:] with the
    message of the exception. *)
Theorem write_file_bare_name path content w w1 e w2 :
  has_sep path = false →
  tools._validate_path sys config path w = (Ok None, w1) →
  makedirs sys "" w1 = (Raise e, w2) →
  tools.write_file sys config path content w
  = (Ok ("Error writing file: " +:+ exc_str e), w2).
Proof.
  intros Hs Hv Hm. unfold tools.write_file.
  rewrite (guarded_accepted _ _ _ _ Hv).
  unfold try_except, tools.write_file_body.
  rewrite (dirname_without_sep _ Hs).
  by rewrite (bind_Raise _ _ _ _ _ Hm).
Qed.

End file_facts.

(** Instance of X4: a path in another tree. *)
Lemma rejected_path_touches_nothing_witness :
  tools.write_file demo.sys demo.config "/etc/passwd" "x" demo.world0
  = (Ok "Error: Path '/etc/passwd' is outside allowed directory '/tmp/data'",
     demo.world0).
Proof.
  eapply (rejected_path_touches_nothing demo.sys demo.config "/etc/passwd" "x"
          demo.world0).
  reflexivity.
Defined.

(** Instance of X5: the name [notes.txt] below the home directory. *)
Lemma write_file_bare_name_witness :
  tools.write_file demo.sys scenarios.config_home "notes.txt" "x" demo.world0
  = (Ok "Error writing file: [Errno 2] No such file or directory: ''",
     demo.world0).
Proof.
  apply (write_file_bare_name demo.sys scenarios.config_home "notes.txt" "x"
           demo.world0 demo.world0
           (mkException FileNotFoundError
              "[Errno 2] No such file or directory: ''") demo.world0).
  - reflexivity.
  - reflexivity.
  - reflexivity.
Defined.

(** ** Failures inside and outside a worker turn *)
Section turn_failure_facts.
Context {World : Type} (sys : System World).
Variable AGENT_TOOLS : gmap string (list (Tool World)).

(** X6: a worker turn raises in two cases only: the state has no
    ["messages"] (a [KeyError], raised before the reasoning step is called,
    the world untouched), or the reasoning step itself raises (the same
    exception). No tool can make the turn raise: an exception of a tool is
    caught and recorded. *)
Theorem worker_turn_raises_only_before_tools agent_name state w e w' :
  agents.create_agent_node sys AGENT_TOOLS agent_name state w = (Raise e, w')
  ↔ (messages state = None
     ∧ e = mkException KeyError "'messages'" ∧ w' = w)
    ∨ (∃ msgs,
         messages state = Some msgs
         ∧ ainvoke sys agent_name
             ([HumanMessage (agents.system_prompt sys agent_name
                               (default ∅ (task_context state)))] ++ msgs) w
           = (Raise e, w')).
Proof.
  unfold agents.create_agent_node, agents.getitem_messages.
  destruct (messages state) as [msgs|] eqn:Hm.
  - unfold bind at 1, ret at 1.
    match goal with |- context [bind (ainvoke sys agent_name ?ms) _ w] =>
      destruct (ainvoke sys agent_name ms w) as [[response|e0] w1] eqn:Hr end.
    + rewrite (bind_Ok _ _ _ _ _ Hr). split.
      * case_bool_decide; simpl; [done|].
        destruct (run_tool_calls_spec
                    (default [] (AGENT_TOOLS !! agent_name))
                    (tool_calls response) [] w1) as (trs & w2 & Hrun & _).
        by rewrite (bind_Ok _ _ _ _ _ Hrun).
      * intros [(? & _)|(msgs' & [= <-] & H)]; [done|]. congruence.
    + rewrite (bind_Raise _ _ _ _ _ Hr). split.
      * intros [= <- <-]. right. by exists msgs.
      * intros [(? & _)|(msgs' & [= <-] & H)]; [done|]. congruence.
  - unfold bind, raise. split.
    + intros [= <- <-]. by left.
    + intros [(_ & -> & ->)|(msgs & ? & _)]; done.
Qed.

End turn_failure_facts.

Section code_worker_facts.
Context {World : Type} (sys : System World) (config : Config).

(** X7: for the code worker, a requested call of [execute_python] that
    carries the argument ["code"] is always recorded with the key
    ["result"], whatever happens to the program: a non-zero exit, a timeout
    or a failure of the operating system is narrated as the value of the
    tool, never recorded as an error. *)
Theorem code_call_is_recorded_as_result c source acc w :
  call_name c = "execute_python" →
  call_args c !! "code" = Some source →
  ∃ text w',
    agents.run_tool (tools.CODE_TOOLS sys config) (call_name c) (call_args c)
      acc w
    = (Ok (acc ++ [mkToolResult "execute_python" (call_args c) (result text)]),
       w').
Proof.
  intros Hname Hcode.
  destruct (execute_python_returns sys config source w) as (text & w' & Hrun).
  exists text, w'.
  rewrite (run_tool_bound (tools.CODE_TOOLS sys config) c acc
             (tools.execute_python_tool sys config) w)
    by (unfold bound; by rewrite Hname).
  simpl. unfold tools.required. rewrite Hcode. unfold bind at 1 2, ret at 1 2.
  rewrite Hrun. unfold recorded. simpl. by rewrite Hname.
Qed.

End code_worker_facts.

(** Instance of X7: a program that runs into the timeout. *)
Lemma code_call_is_recorded_as_result_witness :
  ∃ text w',
    agents.run_tool (tools.CODE_TOOLS demo.sys demo.config)
      (call_name demo.loop_call) (call_args demo.loop_call) [] demo.world0
    = (Ok ([] ++ [mkToolResult "execute_python" (call_args demo.loop_call)
                    (result text)]), w').
Proof.
  apply (code_call_is_recorded_as_result demo.sys demo.config demo.loop_call
           "while True: pass" [] demo.world0).
  - reflexivity.
  - reflexivity.
Defined.

(** ** Runs of the workflow *)
Section run_facts.
Context {World : Type} (sys : System World) (config : Config).

#[local] Abbreviation the_workflow := (graph.workflow sys config).

(** The update that a step streams: a supervisor update without messages
    and results, or a worker update with one message and without routing
    field and context. *)
Lemma step_chunk_shape node state w target state' chunk w' :
  graph.step the_workflow node state w = (Ok (target, state', chunk), w') →
  (chunk.1 = "supervisor" ∧ messages chunk.2 = None
   ∧ intermediate_results chunk.2 = None)
  ∨ (chunk.1 ∈ worker_names ∧ next_agent chunk.2 = None
     ∧ task_context chunk.2 = None ∧ ∃ m, messages chunk.2 = Some [m]).
Proof.
  intros H.
  apply step_inv in H as (delta & -> & _ & [(-> & H & _)|(Hw & H & _)]).
  - left. by apply supervisor_node_shape in H as (dec & ->).
  - right. split; [done|].
    apply agent_node_inv in H
      as (msgs & r & w1 & _ & _ & [(_ & _ & ->)|(_ & trs & _ & ->)]);
      simpl; by eauto.
Qed.

Lemma steps_chunk_shape c tr c' chunk :
  graph.steps the_workflow c tr c' →
  chunk ∈ tr →
  (chunk.1 = "supervisor" ∧ messages chunk.2 = None
   ∧ intermediate_results chunk.2 = None)
  ∨ (chunk.1 ∈ worker_names ∧ next_agent chunk.2 = None
     ∧ task_context chunk.2 = None ∧ ∃ m, messages chunk.2 = Some [m]).
Proof.
  induction 1 as [c|node state w target state' chunk0 w' tr c'' Hne Hs Hr IH];
    [by intros ?%elem_of_nil|].
  intros [->|Hin]%elem_of_cons; [by eapply step_chunk_shape|by apply IH].
Qed.

Lemma worker_is_not_supervisor node :
  node ∈ worker_names → String.eqb node "supervisor" = false.
Proof.
  unfold worker_names. rewrite !elem_of_cons, elem_of_nil.
  by intros [->|[->|[->|[->|[->|[]]]]]].
Qed.

(** X8: a step of the workflow fails only when its node function fails:
    a supervisor step raises exactly when [supervisor_node] raises, with
    the same exception, so the lookup of the routing result in the table of
    the conditional edge never fails; and a worker step raises exactly when
    the worker node raises. *)
Theorem step_fails_only_in_node state w e w' :
  (graph.step the_workflow "supervisor" state w = (Raise e, w')
   ↔ supervisor.supervisor_node sys state w = (Raise e, w'))
  ∧ ∀ node,
      node ∈ worker_names →
      graph.step the_workflow node state w = (Raise e, w')
      ↔ agents.create_agent_node sys (tools.AGENT_TOOLS sys config) node
          state w = (Raise e, w').
Proof.
  split.
  - unfold graph.step.
    rewrite workflow_nodes, workflow_branches.
    rewrite !bool_decide_eq_true_2 by done.
    destruct (supervisor.supervisor_node sys state w)
      as [[delta|e0] w1] eqn:Hd.
    + rewrite (bind_Ok _ _ _ _ _ Hd).
      destruct (supervisor_node_shape sys _ _ _ _ Hd) as (dec & Hdelta).
      assert (next_agent (merge state delta)
              = Some (agent_id (decision_next_agent dec))) as Hn
        by (by rewrite Hdelta).
      rewrite (route_after_decision _ _ Hn), path_map_target.
      unfold ret. split; discriminate.
    + rewrite (bind_Raise _ _ _ _ _ Hd). split; by intros [= -> ->].
  - intros node Hw. unfold graph.step.
    rewrite workflow_nodes, workflow_branches, workflow_edges.
    rewrite bool_decide_eq_false_2
      by (intros ->; by apply worker_is_not_supervisor in Hw).
    rewrite !bool_decide_eq_true_2 by done.
    destruct (agents.create_agent_node sys (tools.AGENT_TOOLS sys config)
                node state w) as [[delta|e0] w1] eqn:Hd.
    + rewrite (bind_Ok _ _ _ _ _ Hd). unfold ret. split; discriminate.
    + rewrite (bind_Raise _ _ _ _ _ Hd). split; by intros [= -> ->].
Qed.

Lemma step_context node state w target state' chunk w' k :
  graph.step the_workflow node state w = (Ok (target, state', chunk), w') →
  k ≠ "last_routing_reason" →
  default ∅ (task_context state') !! k = default ∅ (task_context state) !! k.
Proof.
  intros H Hk.
  apply step_inv in H as (delta & _ & -> & [(_ & H & _)|(_ & H & _)]).
  - apply supervisor_node_shape in H as (dec & ->). simpl.
    by rewrite lookup_insert_ne.
  - by apply agent_node_inv in H
      as (msgs & r & w1 & _ & _ & [(_ & _ & ->)|(_ & trs & _ & ->)]).
Qed.

(** X9: the only key of the context that a run ever writes is
    ["last_routing_reason"]: along any run of the workflow, every other key
    (such as ["original_query"]) has at the end the value, or the absence,
    that it had at the start. *)
Theorem context_keys_are_kept node state w tr node' state' w' k :
  graph.steps the_workflow (node, state, w) tr (node', state', w') →
  k ≠ "last_routing_reason" →
  default ∅ (task_context state') !! k = default ∅ (task_context state) !! k.
Proof.
  intros H Hk. remember (node, state, w) as c eqn:Hc.
  remember (node', state', w') as c' eqn:Hc'.
  revert node state w Hc.
  induction H as [c|node0 state0 w0 target state1 chunk w1 tr c'' Hne Hs Hr IH];
    intros node state w Hc; subst.
  - by injection Hc as <- <- <-.
  - injection Hc as <- <- <-.
    rewrite (IH eq_refl _ _ _ eq_refl). by eapply step_context.
Qed.


Lemma step_append_only node state w target state' chunk w' :
  graph.step the_workflow node state w = (Ok (target, state', chunk), w') →
  default [] (messages state) `prefix_of` default [] (messages state')
  ∧ default [] (intermediate_results state)
      `prefix_of` default [] (intermediate_results state').
Proof.
  intros H.
  apply step_inv in H as (delta & _ & -> & [(_ & H & _)|(_ & H & _)]).
  - by apply supervisor_node_shape in H as (dec & ->).
  - apply agent_node_inv in H
      as (msgs & r & w1 & _ & _ & [(_ & _ & ->)|(_ & trs & _ & ->)]);
      simpl; split; try done; by apply prefix_app_r.
Qed.

(** X11: history and results are append-only along a run: from any node
    and state, the messages and the turn-result records of the state at the
    start are a prefix of those of the state reached, so no earlier entry is
    removed, reordered or replaced. *)
Theorem history_and_results_are_append_only node state w tr node' state' w' :
  graph.steps the_workflow (node, state, w) tr (node', state', w') →
  default [] (messages state) `prefix_of` default [] (messages state')
  ∧ default [] (intermediate_results state)
      `prefix_of` default [] (intermediate_results state').
Proof.
  intros H. remember (node, state, w) as c eqn:Hc.
  remember (node', state', w') as c' eqn:Hc'.
  revert node state w Hc.
  induction H as [c|node0 state0 w0 target state1 chunk w1 tr c'' Hne Hs Hr IH];
    intros node state w Hc; subst.
  - by injection Hc as <- <- <-.
  - injection Hc as <- <- <-.
    destruct (step_append_only _ _ _ _ _ _ _ Hs) as [Hm Hi].
    destruct (IH eq_refl _ _ _ eq_refl) as [Hm' Hi'].
    split; by etrans.
Qed.

(** X12: once the supervisor has taken a turn, the routing field is one of
    the six identifiers of [AGENTS]: after any non-empty run from the
    supervisor, whatever the state at the start (the initial state has the
    empty string there), [next_agent] is the identifier of a worker or
    ["FINISH"]. *)
Theorem routing_field_is_an_agent state w tr node' state' w' :
  graph.steps the_workflow ("supervisor", state, w) tr (node', state', w') →
  tr ≠ [] →
  ∃ a, next_agent state' = Some (agent_id a).
Proof.
  intros H Htr. inversion H as [|? ? ? target state1 chunk w1 tr' ? _ Hs Hr];
    subst; [done|].
  apply step_inv in Hs as (delta & _ & -> & [(_ & _ & a & _ & Ha & _)|(Hw & _)]).
  - destruct (steps_next_agent _ _ _ _ _ Hr) as [Hn|Hn]; simpl in Hn; [|done].
    exists a. by rewrite Hn.
  - by apply worker_is_not_supervisor in Hw.
Qed.

(** X13: a call of [run_agent] that runs the workflow to its end returns
    the text [No response generated], whatever the workers have answered:
    the last streamed item is the update of the supervisor turn that set
    ["FINISH"], and that update has no messages. *)
Theorem finished_run_returns_no_answer fuel query verbose w response :
  openai_api_key config ≠ "" →
  main.outcome_of (main.run_agent sys config fuel query verbose w)
  = main.Returned response →
  response = "No response generated".
Proof.
  intros Hkey. unfold main.run_agent.
  rewrite (validate_with_key _ Hkey). simpl.
  unfold graph.astream. rewrite entry_point_workflow.
  destruct (graph.stream_end
              (graph.astream_from the_workflow fuel "supervisor"
                 (main.initial_state query) w)) eqn:Hend; [|done..].
  intros [= <-].
  pose proof (astream_steps sys config _ _ _ _ Hend) as Hsteps.
  remember (graph.chunks
              (graph.astream_from the_workflow fuel "supervisor"
                 (main.initial_state query) w)) as tr eqn:Htr.
  clear Htr. destruct tr as [|chunk0 tr]; [by inversion Hsteps|].
  destruct (proj1 (steps_end _ _ _ _ _ Hsteps ltac:(done)) eq_refl)
    as (d & Hlast & _).
  rewrite Hlast. unfold main.final_response.
  destruct (steps_chunk_shape _ _ _ ("supervisor", d) Hsteps)
    as [(_ & Hm & _)|(Hw & _)].
  - apply list_elem_of_lookup. exists (Nat.pred (length (chunk0 :: tr))).
    by rewrite <- last_lookup.
  - simpl in Hm. by rewrite Hm.
  - by apply worker_is_not_supervisor in Hw.
Qed.

End run_facts.

(** Instance of X9: the query is still in the context at the end of the
    routed run. *)
Lemma context_keys_are_kept_witness :
  default ∅
    (task_context
       (graph.last_state
          (graph.astream_from (graph.workflow demo.sys demo.config) 5
             "supervisor" demo.state0 demo.world_routed)))
  !! "original_query"
  = Some "What is 2+2?".
Proof.
  rewrite (context_keys_are_kept demo.sys demo.config _ _ _ _ _ _ _
             "original_query" routed_run_steps); [reflexivity|discriminate].
Defined.


(** Instance of X11: the query stays the first message of the history. *)
Lemma history_and_results_are_append_only_witness :
  default [] (messages demo.state0)
  `prefix_of`
  default []
    (messages
       (graph.last_state
          (graph.astream_from (graph.workflow demo.sys demo.config) 5
             "supervisor" demo.state0 demo.world_routed))).
Proof.
  exact (proj1 (history_and_results_are_append_only demo.sys demo.config
                  _ _ _ _ _ _ _ routed_run_steps)).
Defined.

(** Instance of X12: at the end of the routed run the field is
    ["FINISH"]. *)
Lemma routing_field_is_an_agent_witness :
  ∃ a,
    next_agent
      (graph.last_state
         (graph.astream_from (graph.workflow demo.sys demo.config) 5
            "supervisor" demo.state0 demo.world_routed))
    = Some (agent_id a).
Proof.
  apply (routing_field_is_an_agent demo.sys demo.config _ _ _ _ _ _
           routed_run_steps).
  vm_compute. discriminate.
Defined.

(** Instance of X13: the request [What is 2+2?], although the code worker
    has answered it. *)
Lemma finished_run_returns_no_answer_witness :
  main.outcome_of
    (main.run_agent demo.sys demo.config 10 "What is 2+2?" true
       demo.world_routed)
  = main.Returned "No response generated"
  ∧ "No response generated" = "No response generated".
Proof.
  split; [vm_compute; reflexivity|].
  apply (finished_run_returns_no_answer demo.sys demo.config 10 "What is 2+2?"
           true demo.world_routed).
  - discriminate.
  - vm_compute. reflexivity.
Defined.

(** ** Capabilities that call external services *)
Section service_facts.
Context {World Conn Cursor : Type}.
Context (clients : @services.Clients World Conn Cursor) (config : Config).

(** X14: with a key configured and a search that returns, [tavily_search]
    answers [No results found.] exactly when the response has no results
    (the key ["results"] is absent or its list is empty). *)
Theorem tavily_search_no_results query max_results w response w' :
  tavily_api_key config ≠ "" →
  services.tavily_client_search clients (tavily_api_key config) query
    max_results w = (Ok response, w') →
  services.tavily_search clients config query max_results w
  = (Ok "No results found.", w')
  ↔ default [] response = [].
Proof.
  intros Hkey Hs. unfold services.tavily_search.
  assert (Py.truthy (tavily_api_key config) = true) as ->
    by (by destruct (tavily_api_key config)).
  simpl. unfold try_except. rewrite (bind_Ok _ _ _ _ _ Hs).
  destruct (default [] response) as [|item items]; simpl.
  - done.
  - split; [|done]. intros [= H]. exfalso.
    destruct (map services.format_item items);
      unfold services.format_item in H; simpl in H; discriminate.
Qed.

(** X15: [tavily_search] and [http_request] never raise: a missing key, an
    exception of the search client, a timeout or any other exception of
    the HTTP client all end in a returned text. *)
Theorem service_tools_never_raise query max_results url method headers body w :
  (∃ text w',
     services.tavily_search clients config query max_results w = (Ok text, w'))
  ∧ (∃ text w',
       services.http_request clients url method headers body w = (Ok text, w')).
Proof.
  split.
  - unfold services.tavily_search.
    destruct (negb (Py.truthy (tavily_api_key config))); [by eexists _, _|].
    unfold try_except.
    match goal with |- context [match ?m w with _ => _ end] =>
      destruct (m w) as [[t|e] w1] end; by eexists _, _.
  - unfold services.http_request, try_except.
    match goal with |- context [match ?m w with _ => _ end] =>
      destruct (m w) as [[t|e] w1] end; [by eexists _, _|].
    destruct (services.is_timeout_exception clients e); by eexists _, _.
Qed.


(** When the connection cannot be made, nothing is closed and the
    exception is returned as text. *)
Lemma execute_sql_without_connection query database_path w e w1 :
  services.sqlite_connect clients
    (Py.or_else database_path
       (services.replace (database_url config) "sqlite:///" "")) w
  = (Raise e, w1) →
  services.execute_sql clients config query database_path w
  = (Ok ("SQL error: " +:+ exc_str e), w1).
Proof. intros Hc. unfold services.execute_sql. by rewrite Hc. Qed.

Lemma take_all n s : (String.length s ≤ n)%nat → Py.take n s = s.
Proof.
  revert n. induction s as [|c s IH]; intros [|n] Hn; simpl in *;
    try done; try lia.
  rewrite IH; [done|lia].
Qed.

Lemma take_length n s :
  (n ≤ String.length s)%nat → String.length (Py.take n s) = n.
Proof.
  revert n. induction s as [|c s IH]; intros [|n] Hn; simpl in *;
    try done; try lia.
  rewrite IH; [done|lia].
Qed.

Lemma take_prefix n s : String.prefix (Py.take n s) s = true.
Proof.
  revert n. induction s as [|c s IH]; intros [|n]; simpl; try done.
  destruct (ascii_dec c c); [apply IH|done].
Qed.

(** X17: [http_request] shows at most 2000 characters of the body. For a
    response whose body has at most 2000 characters the text ends with the
    whole body; for a longer one it shows the first 2000 characters of the
    body, followed by the note with the total length. *)
Theorem http_request_truncates url method headers body w response w' :
  services.http_client_request clients (Py.upper method) url
    (default ∅ headers) body w = (Ok response, w') →
  let head :=
    ("Status: " +:+ Py.str_of_Z (services.status_code response) +:+ "
") +:+ ("Headers: " +:+ services.headers_text response +:+ "
") in
  ((String.length (services.text response) ≤ 2000)%nat →
   services.http_request clients url method headers body w
   = (Ok (head +:+ ("Body:
" +:+ services.text response)), w'))
  ∧ ((2000 < String.length (services.text response))%nat →
     ∃ shown,
       services.http_request clients url method headers body w
       = (Ok ((head +:+ ("Body:
" +:+ shown))
              +:+ ("
... (truncated, "
                   +:+ Py.str_of_nat (String.length (services.text response))
                   +:+ " total chars)")), w')
       ∧ String.length shown = 2000%nat
       ∧ String.prefix shown (services.text response) = true).
Proof.
  intros Hr head. subst head. unfold services.http_request, try_except.
  rewrite (bind_Ok _ _ _ _ _ Hr). unfold ret. split.
  - intros Hlen. rewrite (take_all _ _ Hlen).
    by rewrite (proj2 (Nat.ltb_ge _ _) Hlen).
  - intros Hlen. exists (Py.take 2000 (services.text response)).
    rewrite (proj2 (Nat.ltb_lt _ _) Hlen).
    split; [done|]. split; [apply take_length; lia|apply take_prefix].
Qed.

End service_facts.

Example default_database_path :
  services.replace (database_url demo.config) "sqlite:///" "" = "./data.db".
Proof. reflexivity. Qed.

(** Instance of X2: after the run of a program the temporary file is
    gone. *)
Lemma execute_python_always_unlinks_witness :
  demo.file_contents
    (tools.execute_python demo.sys demo.config "print(2+2)" demo.world0).2
  !! demo.temp_name
  = None.
Proof.
  rewrite (proj1 (execute_python_always_unlinks demo.sys demo.config
                    "print(2+2)" demo.world0 demo.temp_name
                    (demo.store_temp "print(2+2)" demo.world0).2 eq_refl)).
  vm_compute. reflexivity.
Defined.

(** Instance of X14: a search without results. *)
Lemma tavily_search_no_results_witness :
  services.tavily_search services.demo_clients services.demo_config "" 5
    demo.world0
  = (Ok "No results found.", demo.world0).
Proof.
  apply (tavily_search_no_results services.demo_clients services.demo_config
           "" 5 demo.world0 (Some []) demo.world0).
  - discriminate.
  - reflexivity.
  - reflexivity.
Defined.


Example execute_sql_select :
  (services.execute_sql services.demo_clients services.demo_config "SELECT 1"
     "" demo.world0).1
  = Ok "1
----------------------------------------
1
".
Proof. vm_compute. reflexivity. Qed.

(** Instance of X17: a short body is shown whole. *)
Lemma http_request_truncates_witness :
  services.http_request services.demo_clients "http://localhost/" "get" None
    None demo.world0
  = (Ok "Status: 200
Headers: {}
Body:
GET", demo.world0).
Proof.
  apply (http_request_truncates services.demo_clients "http://localhost/"
           "get" None None demo.world0 (services.mkHttpResponse 200 "{}" "GET")
           demo.world0).
  - reflexivity.
  - vm_compute. lia.
Defined.

(** ** The tables of the modules agree *)

(** X18: every identifier that the router can choose, apart from
    ["FINISH"], is served in every module: it is a node of the workflow
    with an edge back to the supervisor, [AGENT_TOOLS] binds at least one
    tool to it, [_get_agent_role] has a role of its own for it, and
    [AGENT_DESCRIPTIONS] describes it to the router. *)
Theorem every_choice_of_the_router_is_served (a : AGENTS) :
  a ≠ FINISH →
  ∀ (World : Type) (sys : System World) (config : Config),
    agent_id a ∈ worker_names
    ∧ is_Some (graph.nodes (graph.workflow sys config) !! agent_id a)
    ∧ graph.edges (graph.workflow sys config) !! agent_id a
      = Some "supervisor"
    ∧ default [] (tools.AGENT_TOOLS sys config !! agent_id a) ≠ []
    ∧ agents._get_agent_role (agent_id a) ≠ "Assist with the task at hand."
    ∧ agent_id a ∈ map fst AGENT_DESCRIPTIONS.
Proof.
  intros Ha World sys config.
  assert (agent_id a ∈ worker_names) as Hw.
  { unfold worker_names. rewrite !elem_of_cons.
    destruct a; simpl; try done; by eauto 6. }
  split; [done|].
  rewrite (workflow_nodes sys config), (workflow_edges sys config).
  rewrite (bool_decide_eq_true_2 _ Hw).
  split; [by destruct a|]. split; [done|].
  destruct a; try done; repeat split; try discriminate;
    unfold AGENT_DESCRIPTIONS; simpl; rewrite !elem_of_cons; by eauto 7.
Qed.

(** Instance of X18: the code worker. *)
Lemma every_choice_of_the_router_is_served_witness :
  default [] (tools.AGENT_TOOLS demo.sys demo.config !! "code") ≠ [].
Proof.
  apply (every_choice_of_the_router_is_served code ltac:(discriminate)
           demo.World demo.sys demo.config).
Defined.

(** ** Merging updates *)

(** X19: updates compose: merging two updates one after the other into a
    state gives the same state as merging the second update into the first
    and the result into the state; and the empty update changes nothing. *)
Theorem merge_composes state d1 d2 :
  merge (merge state d1) d2 = merge state (merge d1 d2)
  ∧ merge state (mkAgentState None None None None) = state.
Proof.
  split.
  - destruct state as [m n t i], d1 as [m1 n1 t1 i1], d2 as [m2 n2 t2 i2].
    unfold merge, add_messages; simpl. f_equal.
    + destruct m2 as [l2|]; [|done]. destruct m1 as [l1|]; simpl; [|done].
      by rewrite app_assoc.
    + by destruct n2.
    + by destruct t2.
    + by destruct i2.
  - by destruct state.
Qed.

(** ** The program without the credential *)
Section startup_facts.
Context {World : Type} (sys : System World) (config : Config).
Variable ChatOpenAI : string → string → M World unit.

(** C8: the program at the input without credential. When the key is
    absent and the constructor of the client raises for the empty key, the
    import of [agents.py] fails at its first factory call: the process ends
    with the traceback of that exception; [main()], [run_agent] and
    [validate] are never reached, so the explanatory message of [run_agent]
    is not printed, and no turn runs. *)
Theorem missing_key_fails_at_import fuel argv w e w' :
  openai_api_key config = "" →
  ChatOpenAI (model_name config) "" w = (Raise e, w') →
  startup.run_module sys config ChatOpenAI fuel argv w
  = startup.mkProcess (startup.Traceback e) [] [] w'.
Proof.
  intros Hkey Hc. unfold startup.run_module, startup.import_agents.
  unfold startup.create_agent_node_client at 1. rewrite Hkey.
  by rewrite (bind_Raise _ _ _ _ _ Hc).
Qed.

(** What the sources aim at: if the constructor let the empty key pass
    without touching the world, the program would print the message of
    [run_agent] and stop before any turn. *)
Lemma missing_key_message_after_import fuel program query w :
  openai_api_key config = "" →
  (∀ model key w0, ChatOpenAI model key w0 = (Ok (), w0)) →
  startup.run_module sys config ChatOpenAI fuel [program; query] w
  = startup.mkProcess startup.ExitOk
      ["
" +:+ main.banner; "FINAL RESULT:"; main.banner;
       "Error: Missing required configuration: OPENAI_API_KEY"]
      [] w.
Proof.
  intros Hkey Hc. unfold startup.run_module, startup.import_agents.
  unfold startup.create_agent_node_client, bind. rewrite !Hc. unfold ret.
  unfold startup.main. simpl.
  destruct (missing_key_aborts_before_any_turn config Hkey) as [_ Hrun].
  by rewrite Hrun.
Qed.

End startup_facts.

(** Instance of C8: the request [What is 2+2?] without the key. *)
Lemma missing_key_fails_at_import_witness :
  startup.run_module demo.sys demo.config_without_key scenarios.ChatOpenAI 10
    ["src.main"; "What is 2+2?"] demo.world_routed
  = startup.mkProcess
      (startup.Traceback
         (mkException OtherError
            "The api_key client option must be set either by passing api_key to the client or by setting the OPENAI_API_KEY environment variable"))
      [] [] demo.world_routed.
Proof.
  apply (missing_key_fails_at_import demo.sys demo.config_without_key
           scenarios.ChatOpenAI 10 ["src.main"; "What is 2+2?"]
           demo.world_routed).
  - reflexivity.
  - reflexivity.
Defined.

Example missing_key_with_lenient_constructor :
  startup.stdout
    (startup.run_module demo.sys demo.config_without_key
       scenarios.ChatOpenAI_lenient 10 ["src.main"; "What is 2+2?"]
       demo.world_routed)
  = ["
============================================================";
     "FINAL RESULT:";
     "============================================================";
     "Error: Missing required configuration: OPENAI_API_KEY"].
Proof. vm_compute. reflexivity. Qed.

(** The timeout of C7 on a file system where the removal of the temporary
    file fails: the entry is still a result, with the message of the
    removal. *)
Example timeout_with_failing_unlink :
  (agents.create_agent_node scenarios.sys_unlink_fails
     (tools.AGENT_TOOLS scenarios.sys_unlink_fails demo.config) "code"
     demo.state0 (demo.world_asking [demo.loop_call])).1
  = Ok (mkAgentState
          (Some [AIMessage "[CODE AGENT RESULTS]
Tool execute_python: Execution error: [Errno 13] Permission denied
"])
          None None
          (Some [mkTurnResult "code"
                   [mkToolResult "execute_python" (call_args demo.loop_call)
                      (result "Execution error: [Errno 13] Permission denied")]])).
Proof. vm_compute. reflexivity. Qed.
